(** * mcp-auth: the authenticated request pipeline of [server.py]

    A shallow embedding of the identity middleware ([UserAuthMiddleware]),
    the [add_numbers] tool and the two custom routes ([/health] and
    [/.well-known/openid-configuration]), followed by the properties the
    specification states about them. *)

From Stdlib Require Import ZArith String Ascii List.
From Stdlib Require Import PrimFloat.
From stdpp Require Import gmap strings list fin_maps.

Open Scope string_scope.

(** ** Python values *)

(** The values that flow through the server: claim values, request-scoped
    state, tool results.  A [dict] literal keeps its insertion order, so it
    is an association list here; [float] is IEEE binary64, as in CPython. *)
#[warnings="-register-all"]
Inductive value : Type :=
| VNone
| VBool (b : bool)
| VInt (z : Z)
| VFloat (f : PrimFloat.float)
| VStr (s : string)
| VList (l : list value)
| VDict (d : list (string * value)).

(** [d[k]] on a dict literal: the first binding of [k]. *)
Fixpoint dict_get (d : list (string * value)) (k : string) : option value :=
  match d with
  | [] => None
  | (k', v) :: rest => if String.eqb k' k then Some v else dict_get rest k
  end.

(** ** Tokens, contexts and the world a request runs in *)

(** [fastmcp.server.auth.AccessToken].  The attribute [claims] is a
    [dict[str, Any]] when the object has it; [hasattr(token, "claims")] is
    [is_Some (claims t)]. *)
Record AccessToken : Type := {
  token : string;
  client_id : string;
  scopes : list string;
  claims : option (gmap string value)
}.

(** A reference to a [fastmcp.Context] object. *)
Definition ctx_ref : Type := positive.

(** [MiddlewareContext]: the message being processed and the optional
    reference to the request's [Context]. *)
Record MiddlewareContext : Type := {
  method : string;
  message : value;
  fastmcp_context : option ctx_ref
}.

(** A write performed through [Context.set_state]. *)
Inductive event : Type :=
| EvSetState (c : ctx_ref) (k : string) (v : value).

(** What the middleware can read or change: the token bound to the running
    request (what [get_access_token()] returns), the state that the
    [Context] objects address, and the log of state writes.  [fastmcp]
    keeps the state of a [Context] under the MCP session of the request:
    [contexts] holds the state of every [Context] whose session is
    established, and a [Context] that is not in the map has none (it was
    made outside a request). *)
Record World : Type := {
  access_token : option AccessToken;
  contexts : gmap ctx_ref (gmap string value);
  trace : list event
}.

(** The session of the [Context] behind a reference is established. *)
Definition has_session (w : World) (c : ctx_ref) : bool :=
  match contexts w !! c with
  | Some _ => true
  | None => false
  end.

(** The state dict of the [Context] object behind a reference. *)
Definition state_of (w : World) (c : ctx_ref) : gmap string value :=
  default ∅ (contexts w !! c).

(** What [Context.get_state(key)] finds under a key: the value stored, or
    nothing. *)
Definition get_state (w : World) (c : ctx_ref) (k : string) : option value :=
  state_of w c !! k.

(** ** Computations: state passing with Python exceptions *)

Inductive outcome (A : Type) : Type :=
| Returned (a : A)
| Raised (exn : string).
Arguments Returned {A} a.
Arguments Raised {A} exn.

Definition M (A : Type) : Type := World -> outcome A * World.

#[global] Instance M_ret : MRet M := fun A a w => (Returned a, w).

#[global] Instance M_bind : MBind M := fun A B f m w =>
  match m w with
  | (Returned a, w') => f a w'
  | (Raised e, w') => (Raised e, w')
  end.

(** [get_access_token()] of [fastmcp.server.dependencies]. *)
Definition get_access_token : M (option AccessToken) :=
  fun w => (Returned (access_token w), w).

(** [await ctx.set_state(key, value)].  The key is stored under the
    session of the context; on a [Context] without an established session
    the call raises [RuntimeError] and stores nothing. *)
Definition set_state (c : ctx_ref) (k : string) (v : value) : M unit :=
  fun w =>
    match contexts w !! c with
    | Some st =>
        (Returned tt,
         {| access_token := access_token w;
            contexts := <[c := <[k := v]> st]> (contexts w);
            trace := trace w ++ [EvSetState c k v] |})
    | None => (Raised "RuntimeError", w)
    end.

(** ** UserAuthMiddleware *)

(** [_get_user_id]: [None] unless there is a token with a [claims]
    attribute, otherwise [token.claims.get("sub")]. *)
Definition _get_user_id : M value :=
  tok ← get_access_token;
  match tok with
  | None => mret VNone
  | Some t =>
      match claims t with
      | None => mret VNone
      | Some cl => mret (default VNone (cl !! "sub"))
      end
  end.

Definition on_call_tool {R : Type} (context : MiddlewareContext)
    (call_next : MiddlewareContext -> M R) : M R :=
  user_id ← _get_user_id;
  match fastmcp_context context with
  | Some c => set_state c "user_id" user_id
  | None => mret tt
  end;;
  call_next context.

Definition on_read_resource {R : Type} (context : MiddlewareContext)
    (call_next : MiddlewareContext -> M R) : M R :=
  user_id ← _get_user_id;
  match fastmcp_context context with
  | Some c => set_state c "user_id" user_id
  | None => mret tt
  end;;
  call_next context.

(** The two call kinds the middleware intercepts, and the hook the
    framework runs for each. *)
Inductive call_kind : Type := ToolCall | ResourceRead.

Definition intercept {R : Type} (kind : call_kind) :
    MiddlewareContext -> (MiddlewareContext -> M R) -> M R :=
  match kind with
  | ToolCall => on_call_tool
  | ResourceRead => on_read_resource
  end.

(** The world after the steps of a hook that come before [call_next]: the
    hook is run with a next stage that returns at once.  It is the world
    in which the next stage starts, when the hook gets that far. *)
Definition handoff (kind : call_kind) (context : MiddlewareContext)
    (w : World) : World :=
  (intercept kind context (fun _ => mret tt) w).2.

(** The writes a hook performs by itself: the part of the log it adds
    before the next stage starts. *)
Definition own_writes (kind : call_kind) (context : MiddlewareContext)
    (w : World) : list event :=
  drop (length (trace w)) (trace (handoff kind context w)).

(** The world after the guarded [user_id] write of a hook, for the identity
    [v]. *)
Definition published (context : MiddlewareContext) (v : value) (w : World) :
    World :=
  match fastmcp_context context with
  | Some c => (set_state c "user_id" v w).2
  | None => w
  end.

(** The guarded write of a hook goes through: the call has no [Context]
    and the write is skipped, or the session of its [Context] is
    established. *)
Definition write_succeeds (w : World) (context : MiddlewareContext) : bool :=
  match fastmcp_context context with
  | Some c => has_session w c
  | None => true
  end.

(** The three ways in which a request carries no subject identifier. *)
Inductive no_identity (w : World) : Prop :=
| no_token : access_token w = None -> no_identity w
| no_claims t :
    access_token w = Some t -> claims t = None -> no_identity w
| no_sub t cl :
    access_token w = Some t -> claims t = Some cl -> cl !! "sub" = None ->
    no_identity w.

(** ** Sample requests *)

Definition token_of (sub : string) : AccessToken :=
  {| token := "eyJ"; client_id := "mcp-client";
     scopes := ["openid"; "mcp:access"];
     claims := Some {[ "sub" := VStr sub; "aud" := VStr "mcp-server" ]} |}.

(** A token object without a [claims] attribute, and one whose claims have
    no [sub]. *)
Definition token_without_claims : AccessToken :=
  {| token := "eyJ"; client_id := "mcp-client"; scopes := ["openid"];
     claims := None |}.

Definition token_without_sub : AccessToken :=
  {| token := "eyJ"; client_id := "mcp-client"; scopes := ["openid"];
     claims := Some {[ "aud" := VStr "mcp-server" ]} |}.

(** A world with one established session, the one of the [Context] 7,
    with nothing stored yet; every other [Context] has no session. *)
Definition world_of (tok : option AccessToken) : World :=
  {| access_token := tok; contexts := {[ 7%positive := ∅ ]}; trace := [] |}.

Definition tool_request (c : option ctx_ref) : MiddlewareContext :=
  {| method := "tools/call";
     message := VDict [("name", VStr "add_numbers")];
     fastmcp_context := c |}.

(** ** Timestamps *)

Open Scope Z_scope.

(** A naive [datetime.datetime] (no [tzinfo]), which is what
    [datetime.datetime.now()] returns. *)
Record datetime : Type := {
  year : Z;
  month : Z;
  day : Z;
  hour : Z;
  minute : Z;
  second : Z;
  microsecond : Z
}.

Definition is_leap (y : Z) : bool :=
  (y mod 4 =? 0) && (negb (y mod 100 =? 0) || (y mod 400 =? 0)).

Definition days_in_month (y m : Z) : Z :=
  if m =? 2 then (if is_leap y then 29 else 28)
  else if (m =? 4) || (m =? 6) || (m =? 9) || (m =? 11) then 30
  else 31.

Definition between (lo x hi : Z) : bool := (lo <=? x) && (x <=? hi).

(** The invariant of the [datetime] class: every field within its range. *)
Definition valid_datetime (dt : datetime) : bool :=
  between 1 (year dt) 9999 && between 1 (month dt) 12 &&
  between 1 (day dt) (days_in_month (year dt) (month dt)) &&
  between 0 (hour dt) 23 && between 0 (minute dt) 59 &&
  between 0 (second dt) 59 && between 0 (microsecond dt) 999999.

Definition digit_char (d : Z) : ascii := ascii_of_N (Z.to_N (48 + d)).

(** The [k] low-order decimal digits of [n], most significant first, put
    in front of [tail]. *)
Fixpoint fixed_digits (k : nat) (n : Z) (tail : string) : string :=
  match k with
  | O => tail
  | S k' => fixed_digits k' (n / 10) (String (digit_char (n mod 10)) tail)
  end.

(** ["%0kd" % n] for [0 <= n < 10^k]. *)
Definition zpad (k : nat) (n : Z) : string := fixed_digits k n "".

(** [datetime.isoformat()] with its defaults ([sep='T'],
    [timespec='auto']) on a naive value: [YYYY-MM-DDTHH:MM:SS], followed by
    [.ffffff] when the microsecond is not zero. *)
Definition isoformat (dt : datetime) : string :=
  zpad 4 (year dt) +:+ "-" +:+ zpad 2 (month dt) +:+ "-" +:+
  zpad 2 (day dt) +:+ "T" +:+ zpad 2 (hour dt) +:+ ":" +:+
  zpad 2 (minute dt) +:+ ":" +:+ zpad 2 (second dt) +:+
  (if microsecond dt =? 0 then "" else "." +:+ zpad 6 (microsecond dt)).

(** *** Recognising an ISO-8601 timestamp *)

Definition parse_digit (a : ascii) : option Z :=
  let n := Z.of_N (N_of_ascii a) in
  if between 48 n 57 then Some (n - 48) else None.

(** Reads exactly [k] decimal digits. *)
Fixpoint parse_digits (k : nat) (acc : Z) (s : string) : option (Z * string) :=
  match k with
  | O => Some (acc, s)
  | S k' =>
      match s with
      | String a s' =>
          match parse_digit a with
          | Some d => parse_digits k' (acc * 10 + d) s'
          | None => None
          end
      | EmptyString => None
      end
  end.

Definition expect (a : ascii) (s : string) : option string :=
  match s with
  | String b s' => if Ascii.eqb a b then Some s' else None
  | EmptyString => None
  end.

(** The optional decimal fraction of the seconds: nothing, or a dot and
    six digits that are not all zero. *)
Definition parse_fraction (s : string) : option Z :=
  match s with
  | EmptyString => Some 0
  | _ =>
      s ← expect "." s;
      '(us, s) ← parse_digits 6 0 s;
      if (String.eqb s "") && negb (us =? 0) then Some us else None
  end.

(** The extended ISO-8601 form of a calendar date and a local time,
    [YYYY-MM-DDThh:mm:ss] with an optional six-digit fraction.  The result
    is the instant denoted, or [None] when the text is not well formed. *)
Definition parse_iso8601 (s : string) : option datetime :=
  '(y, s) ← parse_digits 4 0 s;
  s ← expect "-" s;
  '(m, s) ← parse_digits 2 0 s;
  s ← expect "-" s;
  '(d, s) ← parse_digits 2 0 s;
  s ← expect "T" s;
  '(hh, s) ← parse_digits 2 0 s;
  s ← expect ":" s;
  '(mm, s) ← parse_digits 2 0 s;
  s ← expect ":" s;
  '(ss, s) ← parse_digits 2 0 s;
  us ← parse_fraction s;
  let dt := {| year := y; month := m; day := d; hour := hh; minute := mm;
               second := ss; microsecond := us |} in
  if valid_datetime dt then Some dt else None.

Definition iso8601_wf (s : string) : bool :=
  match parse_iso8601 s with Some _ => true | None => false end.



(** A sample reading of the clock. *)
Definition leap_day_morning : datetime :=
  {| year := 2024; month := 2; day := 29; hour := 7; minute := 5;
     second := 9; microsecond := 120 |}.

Close Scope Z_scope.

(** ** The registered tool *)

(** [add_numbers]; the reading of the clock by [datetime.datetime.now()]
    is the argument [now]. *)
Definition add_numbers (a b : float) (now : datetime) : list (string * value) :=
  let result := (a + b)%float in
  [ ("operation", VStr "addition");
    ("operand_a", VFloat a);
    ("operand_b", VFloat b);
    ("result", VFloat result);
    ("timestamp", VStr (isoformat now)) ].

(** ** Text and its bytes *)

(** A Python [str] is kept as the bytes of its UTF-8 encoding.  A value of
    [os.environ] whose bytes are not UTF-8 is a [str] with surrogate
    escapes in Python; here it is the byte string itself.
    [str.encode("utf-8")] gives the bytes back, and raises
    [UnicodeEncodeError] on a surrogate escape, that is, exactly when the
    bytes are not well-formed UTF-8. *)

(** What a reader of UTF-8 expects next: a new character, one, two or
    three continuation bytes, or the restricted second byte after [E0],
    [ED], [F0] and [F4] (no overlong form, no surrogate, nothing above
    U+10FFFF). *)
Inductive utf8_state : Type :=
| Utf8Start
| Utf8Tail1
| Utf8Tail2
| Utf8Tail3
| Utf8AfterE0
| Utf8AfterED
| Utf8AfterF0
| Utf8AfterF4.

Definition in_range (lo hi n : N) : bool := (lo <=? n)%N && (n <=? hi)%N.

Definition utf8_step (q : utf8_state) (a : ascii) : option utf8_state :=
  let n := N_of_ascii a in
  match q with
  | Utf8Start =>
      if (n <? 128)%N then Some Utf8Start
      else if in_range 194 223 n then Some Utf8Tail1
      else if (n =? 224)%N then Some Utf8AfterE0
      else if in_range 225 236 n || in_range 238 239 n then Some Utf8Tail2
      else if (n =? 237)%N then Some Utf8AfterED
      else if (n =? 240)%N then Some Utf8AfterF0
      else if in_range 241 243 n then Some Utf8Tail3
      else if (n =? 244)%N then Some Utf8AfterF4
      else None
  | Utf8Tail1 => if in_range 128 191 n then Some Utf8Start else None
  | Utf8Tail2 => if in_range 128 191 n then Some Utf8Tail1 else None
  | Utf8Tail3 => if in_range 128 191 n then Some Utf8Tail2 else None
  | Utf8AfterE0 => if in_range 160 191 n then Some Utf8Tail1 else None
  | Utf8AfterED => if in_range 128 159 n then Some Utf8Tail1 else None
  | Utf8AfterF0 => if in_range 144 191 n then Some Utf8Tail2 else None
  | Utf8AfterF4 => if in_range 128 143 n then Some Utf8Tail2 else None
  end.

(** Reading a byte string from a state; [None] is a byte that cannot
    come next. *)
Fixpoint utf8_run (st : option utf8_state) (s : string) :
    option utf8_state :=
  match s with
  | EmptyString => st
  | String a s' =>
      utf8_run (match st with
                | Some q => utf8_step q a
                | None => None
                end) s'
  end.

Definition valid_utf8 (s : string) : bool :=
  match utf8_run (Some Utf8Start) s with
  | Some Utf8Start => true
  | _ => false
  end.

(** [s.encode("utf-8")]. *)
Definition encode_utf8 (s : string) : outcome string :=
  if valid_utf8 s then Returned s else Raised "UnicodeEncodeError".

(** The state after a character of ASCII: it can only stand where a new
    character starts. *)
Definition ascii_gate (st : option utf8_state) : option utf8_state :=
  match st with
  | Some Utf8Start => Some Utf8Start
  | _ => None
  end.

Definition is_ascii (a : ascii) : bool := (N_of_ascii a <? 128)%N.

Fixpoint ascii_text (s : string) : bool :=
  match s with
  | EmptyString => true
  | String a s' => is_ascii a && ascii_text s'
  end.

(** ** JSON responses *)

(** What the routes of [server.py] give to [JSONResponse]: dict literals
    with string keys, whose values are strings and lists of strings.
    [json] has these, with [None] and the booleans; numbers, tuples and
    dicts with other keys, which [json.dumps] accepts too, are not
    modelled, as no route builds one.  An object keeps the order of the
    dict literal it comes from. *)
#[warnings="-register-all"]
Inductive json : Type :=
| JNull
| JBool (b : bool)
| JStr (s : string)
| JArr (l : list json)
| JObj (l : list (string * json)).

Definition dq : string := String "034"%char "".

(** A text between double quotes, written as it is. *)
Definition quoted (s : string) : string := dq +:+ s +:+ dq.

Definition hex_char (n : N) : ascii :=
  if (n <? 10)%N then ascii_of_N (48 + n) else ascii_of_N (87 + n).

(** One character of a string, as [json.dumps(..., ensure_ascii=False)]
    writes it: the quote, the backslash and the control characters are
    escaped, every other byte is copied. *)
Definition escape_char (a : ascii) : string :=
  let n := N_of_ascii a in
  if (n =? 34)%N then "\" +:+ dq
  else if (n =? 92)%N then "\\"
  else if (n =? 10)%N then "\n"
  else if (n =? 13)%N then "\r"
  else if (n =? 9)%N then "\t"
  else if (n =? 12)%N then "\f"
  else if (n =? 8)%N then "\b"
  else if (n <? 32)%N then
    "\u00" +:+ String (hex_char (n / 16)) (String (hex_char (n mod 16)) "")
  else String a "".

Fixpoint escape (s : string) : string :=
  match s with
  | EmptyString => ""
  | String a s' => escape_char a +:+ escape s'
  end.

Definition quote (s : string) : string := dq +:+ escape s +:+ dq.

Fixpoint join (sep : string) (l : list string) : string :=
  match l with
  | [] => ""
  | [x] => x
  | x :: rest => x +:+ sep +:+ join sep rest
  end.

(** [json.dumps(content, ensure_ascii=False, separators=(",", ":"))]. *)
Fixpoint dumps (j : json) : string :=
  match j with
  | JNull => "null"
  | JBool true => "true"
  | JBool false => "false"
  | JStr s => quote s
  | JArr l => "[" +:+ join "," (map dumps l) +:+ "]"
  | JObj l =>
      "{" +:+
      join "," (map (fun kv => quote kv.1 +:+ ":" +:+ dumps kv.2) l) +:+
      "}"
  end.

(** [JSONResponse.render]: the text of [json.dumps], encoded. *)
Definition render (content : json) : outcome string :=
  encode_utf8 (dumps content).

(** Every string of a document, keys included, is well-formed text. *)
Fixpoint all_text (j : json) : bool :=
  match j with
  | JStr s => valid_utf8 s
  | JArr l => forallb all_text l
  | JObj l => forallb (fun kv => valid_utf8 kv.1 && all_text kv.2) l
  | _ => true
  end.

(** [doc[k]] on a JSON object. *)
Fixpoint assoc (l : list (string * json)) (k : string) : option json :=
  match l with
  | [] => None
  | (k', v) :: rest => if String.eqb k' k then Some v else assoc rest k
  end.

(** The keys of a JSON object, in order. *)
Definition keys (j : json) : list string :=
  match j with
  | JObj l => map fst l
  | _ => []
  end.

Definition field (j : json) (k : string) : option json :=
  match j with
  | JObj l => assoc l k
  | _ => None
  end.

(** A [starlette.responses.JSONResponse]: the content it was made from,
    and the status, media type and body (the bytes sent) it carries. *)
Record JSONResponse : Type := {
  content : json;
  status_code : Z;
  media_type : string;
  body : string
}.

(** [JSONResponse(content)] with the defaults of its constructor, which
    renders the body: a content that cannot be encoded makes the
    constructor raise. *)
Definition json_response (c : json) : outcome JSONResponse :=
  match render c with
  | Returned b =>
      Returned {| content := c; status_code := 200;
                  media_type := "application/json"; body := b |}
  | Raised e => Raised e
  end.

(** An inbound HTTP request, as far as a route handler could look at it. *)
Record Request : Type := {
  http_method : string;
  path : string;
  headers : list (string * string);
  payload : string
}.

(** ** Custom routes *)

Definition health_check (_request : Request) : outcome JSONResponse :=
  json_response (JObj [ ("status", JStr "healthy");
                        ("service", JStr "mcp-server") ]).

Section Discovery.

(** The realm URL read from the environment when the module is loaded. *)
Variable KEYCLOAK_REALM_URL : string.

(** The dict literal of [openid_configuration]. *)
Definition discovery_document : json :=
  JObj [
    ("issuer", JStr KEYCLOAK_REALM_URL);
    ("authorization_endpoint",
       JStr (KEYCLOAK_REALM_URL +:+ "/protocol/openid-connect/auth"));
    ("token_endpoint",
       JStr (KEYCLOAK_REALM_URL +:+ "/protocol/openid-connect/token"));
    ("userinfo_endpoint",
       JStr (KEYCLOAK_REALM_URL +:+ "/protocol/openid-connect/userinfo"));
    ("jwks_uri",
       JStr (KEYCLOAK_REALM_URL +:+ "/protocol/openid-connect/certs"));
    ("registration_endpoint",
       JStr (KEYCLOAK_REALM_URL +:+ "/clients-registrations/openid-connect"));
    ("scopes_supported",
       JArr [JStr "openid"; JStr "profile"; JStr "email"; JStr "mcp:access"]);
    ("response_types_supported", JArr [JStr "code"]);
    ("grant_types_supported",
       JArr [JStr "authorization_code"; JStr "refresh_token"]);
    ("token_endpoint_auth_methods_supported",
       JArr [JStr "client_secret_basic"; JStr "client_secret_post"]);
    ("code_challenge_methods_supported", JArr [JStr "S256"]) ].

Definition openid_configuration (_request : Request) :
    outcome JSONResponse :=
  json_response discovery_document.

End Discovery.

Definition get_request (p : string) (hs : list (string * string)) : Request :=
  {| http_method := "GET"; path := p; headers := hs; payload := "" |}.

(** ** Reading JSON back *)

(** What a client does with a body: a reader for the compact JSON texts
    of [dumps] (no blanks between the tokens, no numbers).  It accepts
    less than [json.loads], and reads what it accepts as [json.loads]
    does. *)

Definition hex_value (a : ascii) : option N :=
  let n := N_of_ascii a in
  if (48 <=? n)%N && (n <=? 57)%N then Some (n - 48)%N
  else if (97 <=? n)%N && (n <=? 102)%N then Some (n - 87)%N
  else if (65 <=? n)%N && (n <=? 70)%N then Some (n - 55)%N
  else None.

Definition prepend (a : ascii) (r : option (string * string)) :
    option (string * string) :=
  match r with
  | Some (s, rest) => Some (String a s, rest)
  | None => None
  end.

(** The characters of a string up to its closing quote, with the escapes
    undone, and the text after the quote.  A raw control character, an
    unknown escape and a missing quote are errors; so is [\uXXXX] outside
    ASCII, which [dumps] never writes. *)
Fixpoint read_chars (s : string) : option (string * string) :=
  match s with
  | EmptyString => None
  | String c s1 =>
      let n := N_of_ascii c in
      if (n =? 34)%N then Some (EmptyString, s1)
      else if (n =? 92)%N then
        match s1 with
        | String e s2 =>
            let m := N_of_ascii e in
            if (m =? 34)%N || (m =? 92)%N || (m =? 47)%N
            then prepend e (read_chars s2)
            else if (m =? 110)%N then prepend "010"%char (read_chars s2)
            else if (m =? 114)%N then prepend "013"%char (read_chars s2)
            else if (m =? 116)%N then prepend "009"%char (read_chars s2)
            else if (m =? 102)%N then prepend "012"%char (read_chars s2)
            else if (m =? 98)%N then prepend "008"%char (read_chars s2)
            else if (m =? 117)%N then
              match s2 with
              | String h1 (String h2 (String h3 (String h4 s3))) =>
                  match hex_value h1, hex_value h2,
                        hex_value h3, hex_value h4 with
                  | Some 0%N, Some 0%N, Some x, Some y =>
                      if (x <? 8)%N
                      then prepend (ascii_of_N (16 * x + y)) (read_chars s3)
                      else None
                  | _, _, _, _ => None
                  end
              | _ => None
              end
            else None
        | EmptyString => None
        end
      else if (n <? 32)%N then None
      else prepend c (read_chars s1)
  end.

Fixpoint strip_prefix (p s : string) : option string :=
  match p with
  | EmptyString => Some s
  | String a p' =>
      match s with
      | String b s' => if Ascii.eqb a b then strip_prefix p' s' else None
      | EmptyString => None
      end
  end.

Definition parse_keyword (s : string) : option (json * string) :=
  match strip_prefix "null" s with
  | Some rest => Some (JNull, rest)
  | None =>
      match strip_prefix "true" s with
      | Some rest => Some (JBool true, rest)
      | None =>
          match strip_prefix "false" s with
          | Some rest => Some (JBool false, rest)
          | None => None
          end
      end
  end.

(** A value, the elements of an array after its bracket, the members of
    an object after its brace; [fuel] bounds the nesting of the calls. *)
Fixpoint parse_value (fuel : nat) (s : string) : option (json * string) :=
  match fuel with
  | O => None
  | S fuel =>
      match s with
      | EmptyString => None
      | String c s1 =>
          if Ascii.eqb c "034" then
            match read_chars s1 with
            | Some (str, rest) => Some (JStr str, rest)
            | None => None
            end
          else if Ascii.eqb c "[" then
            match strip_prefix "]" s1 with
            | Some rest => Some (JArr [], rest)
            | None =>
                match parse_array fuel s1 with
                | Some (l, rest) => Some (JArr l, rest)
                | None => None
                end
            end
          else if Ascii.eqb c "{" then
            match strip_prefix "}" s1 with
            | Some rest => Some (JObj [], rest)
            | None =>
                match parse_object fuel s1 with
                | Some (l, rest) => Some (JObj l, rest)
                | None => None
                end
            end
          else parse_keyword s
      end
  end
with parse_array (fuel : nat) (s : string) : option (list json * string) :=
  match fuel with
  | O => None
  | S fuel =>
      match parse_value fuel s with
      | Some (v, String c rest) =>
          if Ascii.eqb c "," then
            match parse_array fuel rest with
            | Some (l, rest') => Some (v :: l, rest')
            | None => None
            end
          else if Ascii.eqb c "]" then Some ([v], rest)
          else None
      | _ => None
      end
  end
with parse_object (fuel : nat) (s : string) :
    option (list (string * json) * string) :=
  match fuel with
  | O => None
  | S fuel =>
      match strip_prefix dq s with
      | None => None
      | Some s1 =>
          match read_chars s1 with
          | Some (k, String c1 s2) =>
              if Ascii.eqb c1 ":" then
                match parse_value fuel s2 with
                | Some (v, String c rest) =>
                    if Ascii.eqb c "," then
                      match parse_object fuel rest with
                      | Some (l, rest') => Some ((k, v) :: l, rest')
                      | None => None
                      end
                    else if Ascii.eqb c "}" then Some ([(k, v)], rest)
                    else None
                | _ => None
                end
              else None
          | _ => None
          end
      end
  end.

(** [json.loads] on the bytes of a compact text: the bytes are UTF-8 and
    the whole text is one value. *)
Definition json_loads (s : string) : option json :=
  if valid_utf8 s then
    match parse_value (2 * String.length s + 2) s with
    | Some (j, EmptyString) => Some j
    | _ => None
    end
  else None.

(** The number of nested calls the reader needs for a document. *)
Fixpoint weight (j : json) : nat :=
  match j with
  | JArr l => S (list_sum (map (fun x => S (weight x)) l))
  | JObj l => S (list_sum (map (fun kv => S (weight kv.2)) l))
  | _ => 1
  end.

(** A document is read back from its text, followed by anything, with
    fuel to spare. *)
Definition reads_back (j : json) : Prop :=
  forall fuel rest, weight j <= fuel ->
    parse_value fuel (dumps j +:+ rest) = Some (j, rest).

(** ** Requests one after the other, and sample handlers *)

(** The world as a later request finds it: its own token is bound, the
    contexts and the log are as the earlier requests left them. *)
Definition with_token (tok : option AccessToken) (w : World) : World :=
  {| access_token := tok; contexts := contexts w; trace := trace w |}.

(** A next stage that raises at once. *)
Definition failing_stage {R : Type} (e : string) :
    MiddlewareContext -> M R :=
  fun _ w => (Raised e, w).

(** A next stage that returns at once, whatever the call. *)
Definition done_stage : MiddlewareContext -> M value :=
  fun _ => mret (VStr "done").

(** A handler that returns [await ctx.get_state("user_id")]; like
    [set_state], the call needs the session of the context. *)
Definition whoami (c : ctx_ref) : MiddlewareContext -> M (option value) :=
  fun _ w =>
    if has_session w c then (Returned (get_state w c "user_id"), w)
    else (Raised "RuntimeError", w).

(** ** Start-up configuration *)

(** [str.lower] on the bytes of a string: the ASCII capitals are folded.
    No character outside ASCII has [t], [r], [u] or [e] as its lower case,
    so the comparison with ["true"] below is the one Python makes. *)
Definition lower_char (a : ascii) : ascii :=
  let n := N_of_ascii a in
  if (65 <=? n)%N && (n <=? 90)%N then ascii_of_N (n + 32) else a.

Fixpoint lower (s : string) : string :=
  match s with
  | EmptyString => EmptyString
  | String a s' => String (lower_char a) (lower s')
  end.

(** [os.getenv(key)]. *)
Definition getenv (environ : gmap string string) (key : string) :
    option string :=
  environ !! key.

(** [os.environ[key]]: a [KeyError] when the variable is not set. *)
Definition environ_item (environ : gmap string string) (key : string) :
    outcome string :=
  match environ !! key with
  | Some v => Returned v
  | None => Raised ("KeyError: " +:+ key)
  end.

(** [x or y] for an optional string [x]: [None] and [""] are false. *)
Definition str_or (x : option string) (y : string) : string :=
  match x with
  | Some (String a s) => String a s
  | _ => y
  end.

(** [load_dotenv(override=True)]: every binding of the [.env] file is put
    into the environment, over the binding the process had. *)
Definition load_dotenv (dotenv environ : gmap string string) :
    gmap string string :=
  dotenv ∪ environ.

(** The arguments [KeycloakAuthProvider] is built from. *)
Record KeycloakAuthProvider : Type := {
  realm_url : string;
  base_url : string;
  required_scopes : list string;
  audience : string;
  initial_access_token : option string
}.

(** The module-level names once [server.py] has been loaded. *)
Record Settings : Type := {
  RUNNING_IN_PRODUCTION : bool;
  KEYCLOAK_REALM_URL : string;
  keycloak_base_url : string;
  keycloak_audience : string;
  keycloak_initial_access_token : option string;
  auth : KeycloakAuthProvider
}.

(** The first statement of the module: the production flag. *)
Definition running_in_production (environ : gmap string string) : bool :=
  String.eqb (lower (default "false" (getenv environ "RUNNING_IN_PRODUCTION")))
    "true".

(** The configuration statements of the module, from the environment of
    the process and the bindings of the [.env] file (empty when there is
    no file): the module-level names and the arguments given to
    [KeycloakAuthProvider], or the [KeyError] of a missing variable.  The
    constructor of the provider is a record here: what it does with its
    arguments is not part of [server.py]. *)
Definition load_module (environ dotenv : gmap string string) :
    outcome Settings :=
  let production := running_in_production environ in
  let environ := if production then environ else load_dotenv dotenv environ in
  match environ_item environ "KEYCLOAK_REALM_URL" with
  | Raised e => Raised e
  | Returned url =>
      match (if production
             then environ_item environ "KEYCLOAK_MCP_SERVER_BASE_URL"
             else Returned "http://localhost:8000") with
      | Raised e => Raised e
      | Returned base =>
          let aud :=
            str_or (getenv environ "KEYCLOAK_MCP_SERVER_AUDIENCE")
              "mcp-server" in
          let iat := getenv environ "KEYCLOAK_INITIAL_ACCESS_TOKEN" in
          Returned
            {| RUNNING_IN_PRODUCTION := production;
               KEYCLOAK_REALM_URL := url;
               keycloak_base_url := base;
               keycloak_audience := aud;
               keycloak_initial_access_token := iat;
               auth := {| realm_url := url;
                          base_url := base;
                          required_scopes := ["openid"; "mcp:access"];
                          audience := aud;
                          initial_access_token := iat |} |}
      end
  end.

(** Sample environments: a development one with its [.env] file, and a
    production one. *)
Definition dev_environ : gmap string string :=
  {[ "KEYCLOAK_REALM_URL" := "http://kc.test/realms/a";
     "KEYCLOAK_MCP_SERVER_BASE_URL" := "https://mcp.test" ]}.

Definition dev_dotenv : gmap string string :=
  {[ "KEYCLOAK_REALM_URL" := "http://localhost:8080/realms/local";
     "RUNNING_IN_PRODUCTION" := "true";
     "KEYCLOAK_MCP_SERVER_AUDIENCE" := "" ]}.

Definition prod_environ : gmap string string :=
  {[ "RUNNING_IN_PRODUCTION" := "True";
     "KEYCLOAK_REALM_URL" := "https://kc.example.org/realms/prod";
     "KEYCLOAK_MCP_SERVER_BASE_URL" := "https://mcp.example.org";
     "KEYCLOAK_MCP_SERVER_AUDIENCE" := "calculator" ]}.

(** The payload the specification lists for [/health]. *)
Definition health_payload : string :=
  "{" +:+ quoted "status" +:+ ":" +:+ quoted "healthy" +:+ "," +:+
  quoted "service" +:+ ":" +:+ quoted "mcp-server" +:+ "}".

(** ** Properties of the middleware *)

Lemma get_user_id_returns w :
  exists v, _get_user_id w = (Returned v, w).
Proof.
  unfold _get_user_id, get_access_token, mbind, M_bind; simpl.
  destruct (access_token w) as [t|]; [destruct (claims t)|]; eauto.
Qed.

Lemma get_user_id_sub w t cl v :
  access_token w = Some t -> claims t = Some cl -> cl !! "sub" = Some v ->
  _get_user_id w = (Returned v, w).
Proof.
  intros Ht Hc Hs.
  unfold _get_user_id, get_access_token, mbind, M_bind; simpl.
  by rewrite Ht, Hc, Hs.
Qed.

Lemma get_user_id_absent w :
  no_identity w -> _get_user_id w = (Returned VNone, w).
Proof.
  unfold _get_user_id, get_access_token, mbind, M_bind; simpl.
  intros [Ht | t Ht Hc | t cl Ht Hc Hs]; rewrite Ht; try rewrite Hc;
    try rewrite Hs; done.
Qed.

(** Without a session [set_state] raises and leaves the world alone. *)
Lemma set_state_no_session c k v w :
  has_session w c = false -> set_state c k v w = (Raised "RuntimeError", w).
Proof. unfold has_session, set_state. by destruct (contexts w !! c). Qed.

(** A hook whose write goes through is its next stage, started after the
    write. *)
Lemma intercept_run {R : Type} kind context
    (next : MiddlewareContext -> M R) w v :
  _get_user_id w = (Returned v, w) ->
  write_succeeds w context = true ->
  intercept kind context next w = next context (published context v w).
Proof.
  intros Hv Hw. unfold published, write_succeeds, has_session in *.
  destruct kind; simpl; unfold on_call_tool, on_read_resource;
    unfold mbind at 1; unfold M_bind at 1; rewrite Hv;
    unfold mbind at 1; unfold M_bind at 1;
    (destruct (fastmcp_context context) as [c|]; [|reflexivity]);
    unfold set_state; destruct (contexts w !! c);
    first [reflexivity | discriminate Hw].
Qed.

(** A hook whose write fails ends with the exception of [set_state]: the
    next stage is not started and the world is as it was. *)
Lemma intercept_raises {R : Type} kind context
    (next : MiddlewareContext -> M R) w :
  write_succeeds w context = false ->
  intercept kind context next w = (Raised "RuntimeError", w).
Proof.
  intros Hw. destruct (get_user_id_returns w) as [v Hv].
  unfold write_succeeds, has_session in Hw.
  destruct kind; simpl; unfold on_call_tool, on_read_resource;
    unfold mbind at 1; unfold M_bind at 1; rewrite Hv;
    unfold mbind at 1; unfold M_bind at 1;
    (destruct (fastmcp_context context) as [c|]; [|discriminate Hw]);
    unfold set_state; destruct (contexts w !! c);
    first [discriminate Hw | reflexivity].
Qed.

Lemma handoff_published kind context w v :
  _get_user_id w = (Returned v, w) ->
  handoff kind context w = published context v w.
Proof.
  intros Hv. unfold handoff. destruct (write_succeeds w context) eqn:Hw.
  - by rewrite (intercept_run _ _ _ _ v Hv Hw).
  - rewrite (intercept_raises _ _ _ _ Hw). simpl.
    unfold published, write_succeeds in *.
    destruct (fastmcp_context context) as [c|]; [|done].
    by rewrite set_state_no_session.
Qed.

Lemma get_state_set_state c k v w c' k' :
  has_session w c = true ->
  get_state (set_state c k v w).2 c' k' =
    if decide (c' = c /\ k' = k) then Some v else get_state w c' k'.
Proof.
  unfold has_session, get_state, state_of, set_state.
  destruct (contexts w !! c) as [st|] eqn:Hst; [intros _ | discriminate].
  simpl. destruct (decide (c' = c)) as [->|Hc].
  - rewrite lookup_insert_eq, Hst; simpl.
    destruct (decide (k' = k)) as [->|Hk].
    + rewrite lookup_insert_eq. by rewrite decide_True.
    + rewrite lookup_insert_ne by done. rewrite decide_False; [done|].
      by intros [_ ?].
  - rewrite lookup_insert_ne by done. rewrite decide_False; [done|].
    by intros [? _].
Qed.

(** [set_state] neither opens nor closes a session. *)
Lemma has_session_set_state c k v w c' :
  has_session (set_state c k v w).2 c' = has_session w c'.
Proof.
  unfold has_session, set_state.
  destruct (contexts w !! c) as [st|] eqn:Hst; simpl; [|done].
  destruct (decide (c' = c)) as [->|Hc].
  - by rewrite lookup_insert_eq, Hst.
  - by rewrite lookup_insert_ne.
Qed.

Lemma has_session_published context v w c :
  has_session (published context v w) c = has_session w c.
Proof.
  unfold published. destruct (fastmcp_context context); [|done].
  apply has_session_set_state.
Qed.

Lemma access_token_published context v w :
  access_token (published context v w) = access_token w.
Proof.
  unfold published. destruct (fastmcp_context context) as [c|]; [|done].
  unfold set_state. by destruct (contexts w !! c).
Qed.

Lemma trace_published context v w :
  trace (published context v w) =
    (trace w ++ match fastmcp_context context with
                | Some c =>
                    if has_session w c then [EvSetState c "user_id" v] else []
                | None => []
                end)%list.
Proof.
  unfold published, has_session, set_state.
  destruct (fastmcp_context context) as [c|]; simpl;
    [destruct (contexts w !! c); simpl|]; by rewrite ?app_nil_r.
Qed.

Lemma own_writes_published kind context w v :
  _get_user_id w = (Returned v, w) ->
  own_writes kind context w =
    match fastmcp_context context with
    | Some c => if has_session w c then [EvSetState c "user_id" v] else []
    | None => []
    end.
Proof.
  intros Hv. unfold own_writes.
  rewrite (handoff_published _ _ _ _ Hv), trace_published.
  by rewrite drop_app_length.
Qed.

(** The hooks on sample requests. *)

Example get_user_id_u1 :
  _get_user_id (world_of (Some (token_of "u1"))) =
    (Returned (VStr "u1"), world_of (Some (token_of "u1"))).
Proof. reflexivity. Qed.

Example get_user_id_without_claims :
  _get_user_id (world_of (Some token_without_claims)) =
    (Returned VNone, world_of (Some token_without_claims)).
Proof. apply get_user_id_absent. by eapply no_claims. Qed.

Example get_user_id_without_sub :
  _get_user_id (world_of (Some token_without_sub)) =
    (Returned VNone, world_of (Some token_without_sub)).
Proof. apply get_user_id_absent. by eapply no_sub. Qed.

Example tool_call_u1_writes :
  own_writes ToolCall (tool_request (Some 7%positive))
    (world_of (Some (token_of "u1")))
  = [EvSetState 7%positive "user_id" (VStr "u1")].
Proof. reflexivity. Qed.

Example resource_read_anonymous_writes :
  own_writes ResourceRead (tool_request (Some 7%positive)) (world_of None)
  = [EvSetState 7%positive "user_id" VNone].
Proof. reflexivity. Qed.

(** An exception of the next stage goes through a hook as it is. *)
Example handler_error_propagates :
  (intercept ToolCall (tool_request (Some 7%positive))
     (fun _ w => (Raised (A := value) "ToolError", w))
     (world_of (Some (token_of "u1")))).1
  = Raised "ToolError".
Proof. reflexivity. Qed.

(** So does the exception of [set_state], for a call whose [Context] has
    no session: the stage after the hook is not run. *)
Example tool_call_without_session :
  intercept ToolCall (tool_request (Some 9%positive)) done_stage
    (world_of (Some (token_of "u1")))
  = (Raised "RuntimeError", world_of (Some (token_of "u1"))).
Proof. reflexivity. Qed.

(** C1. When the token of the request has a claims structure whose [sub]
    claim is [v], and the call has a request-scoped context [c] (a
    [Context] whose session is established), then both hooks hand the call
    to the next stage in a world where the state of [c] holds [v] under
    [user_id]. *)
Theorem sub_claim_published kind context c w t cl v :
  access_token w = Some t ->
  claims t = Some cl ->
  cl !! "sub" = Some v ->
  fastmcp_context context = Some c ->
  has_session w c = true ->
  exists w',
    (forall (R : Type) (next : MiddlewareContext -> M R),
        intercept kind context next w = next context w') /\
    get_state w' c "user_id" = Some v.
Proof.
  intros Ht Hc Hs Hctx Hlive.
  pose proof (get_user_id_sub _ _ _ _ Ht Hc Hs) as Hv.
  exists (published context v w). split.
  - intros R next. apply intercept_run; [done|].
    unfold write_succeeds. by rewrite Hctx.
  - unfold published. rewrite Hctx, get_state_set_state by done.
    by rewrite decide_True.
Qed.

Lemma sub_claim_published_witness :
  exists w',
    (forall (R : Type) (next : MiddlewareContext -> M R),
        intercept ResourceRead (tool_request (Some 7%positive)) next
          (world_of (Some (token_of "u1")))
        = next (tool_request (Some 7%positive)) w') /\
    get_state w' 7%positive "user_id" = Some (VStr "u1").
Proof.
  apply (sub_claim_published ResourceRead (tool_request (Some 7%positive))
           7%positive (world_of (Some (token_of "u1"))) (token_of "u1")
           {[ "sub" := VStr "u1"; "aud" := VStr "mcp-server" ]} (VStr "u1"));
    reflexivity.
Defined.

(** C2, as stated: every request without a subject identifier has [None]
    stored under [user_id], raises nothing and reaches the next stage.  It
    fails in two ways.  A call without a [Context] is forwarded with
    nothing stored: the guard of the hook skips the write.  A call whose
    [Context] has no session does not reach the next stage: [set_state]
    raises, the hook has no handler, and nothing is stored either. *)
Lemma absent_identity_unstored :
  no_identity (world_of None) /\
  own_writes ToolCall (tool_request None) (world_of None) = [] /\
  handoff ToolCall (tool_request None) (world_of None) = world_of None /\
  intercept ToolCall (tool_request (Some 9%positive)) done_stage
    (world_of None)
  = (Raised "RuntimeError", world_of None).
Proof.
  split; [by apply no_token|]. split; [reflexivity|].
  split; reflexivity.
Qed.

(** C2, amended. When the request has no token, or its token has no claims
    structure, or the claims have no [sub], the identity resolved is
    [None] and resolving it raises nothing.  For a call with a
    request-scoped context whose session is established, both hooks store
    [None] under [user_id] and hand the call to the next stage, whose
    outcome is the outcome of the call; for a call without a [Context]
    they hand it on in the world as it was.  The hooks do not handle an
    exception of [set_state]: for a [Context] without a session the call
    ends with it, before the next stage. *)
Theorem absent_identity_degrades kind context w :
  no_identity w ->
  _get_user_id w = (Returned VNone, w) /\
  match fastmcp_context context with
  | Some c =>
      if has_session w c then
        exists w',
          (forall (R : Type) (next : MiddlewareContext -> M R),
              intercept kind context next w = next context w') /\
          get_state w' c "user_id" = Some VNone
      else
        forall (R : Type) (next : MiddlewareContext -> M R),
          intercept kind context next w = (Raised "RuntimeError", w)
  | None =>
      forall (R : Type) (next : MiddlewareContext -> M R),
        intercept kind context next w = next context w
  end.
Proof.
  intros Hno. pose proof (get_user_id_absent _ Hno) as Hv.
  split; [done|].
  destruct (fastmcp_context context) as [c|] eqn:Hctx.
  - destruct (has_session w c) eqn:Hlive.
    + exists (published context VNone w). split.
      * intros R next. apply intercept_run; [done|].
        unfold write_succeeds. by rewrite Hctx.
      * unfold published. rewrite Hctx, get_state_set_state by done.
        by rewrite decide_True.
    + intros R next. apply intercept_raises.
      unfold write_succeeds. by rewrite Hctx.
  - intros R next.
    rewrite (intercept_run _ _ _ _ VNone Hv);
      unfold published, write_succeeds; by rewrite Hctx.
Qed.

Lemma absent_identity_degrades_witness :
  (exists w',
     (forall (R : Type) (next : MiddlewareContext -> M R),
         intercept ToolCall (tool_request (Some 7%positive)) next
           (world_of None)
         = next (tool_request (Some 7%positive)) w') /\
     get_state w' 7%positive "user_id" = Some VNone) /\
  (exists w',
     (forall (R : Type) (next : MiddlewareContext -> M R),
         intercept ResourceRead (tool_request (Some 7%positive)) next
           (world_of (Some token_without_claims))
         = next (tool_request (Some 7%positive)) w') /\
     get_state w' 7%positive "user_id" = Some VNone) /\
  (exists w',
     (forall (R : Type) (next : MiddlewareContext -> M R),
         intercept ToolCall (tool_request (Some 7%positive)) next
           (world_of (Some token_without_sub))
         = next (tool_request (Some 7%positive)) w') /\
     get_state w' 7%positive "user_id" = Some VNone) /\
  (forall (R : Type) (next : MiddlewareContext -> M R),
      intercept ToolCall (tool_request None) next
        (world_of (Some token_without_sub))
      = next (tool_request None) (world_of (Some token_without_sub))).
Proof.
  split; [|split; [|split]].
  - apply (absent_identity_degrades ToolCall (tool_request (Some 7%positive))
             (world_of None)).
    apply no_token. reflexivity.
  - apply (absent_identity_degrades ResourceRead
             (tool_request (Some 7%positive))
             (world_of (Some token_without_claims))).
    apply (no_claims _ token_without_claims); reflexivity.
  - apply (absent_identity_degrades ToolCall (tool_request (Some 7%positive))
             (world_of (Some token_without_sub))).
    apply (no_sub _ token_without_sub {[ "aud" := VStr "mcp-server" ]});
      reflexivity.
  - apply (absent_identity_degrades ToolCall (tool_request None)
             (world_of (Some token_without_sub))).
    apply (no_sub _ token_without_sub {[ "aud" := VStr "mcp-server" ]});
      reflexivity.
Defined.

(** C3, as stated: every intercepted call performs exactly one write.  It
    fails for a call whose context has no request-scoped state: the guard
    of the hook skips the write. *)
Lemma no_write_without_context :
  ~ (exists e, own_writes ToolCall (tool_request None)
                 (world_of (Some (token_of "u1"))) = [e]).
Proof. intros [e He]. vm_compute in He. discriminate He. Qed.

(** C3, amended. A hook performs one write, of the resolved identity under
    [user_id], when the call has a request-scoped context (a [Context]
    whose session is established), and none when it has not; nothing else
    changes: the log grows by these writes only, the token is left as it
    was, no session is opened or closed, and every other key of every
    context keeps its value. *)
Theorem one_guarded_write kind context w :
  exists v,
    _get_user_id w = (Returned v, w) /\
    trace (handoff kind context w) =
      (trace w ++ own_writes kind context w)%list /\
    access_token (handoff kind context w) = access_token w /\
    (forall c', has_session (handoff kind context w) c' = has_session w c') /\
    match fastmcp_context context with
    | Some c =>
        if has_session w c then
          own_writes kind context w = [EvSetState c "user_id" v] /\
          forall c' k, ~ (c' = c /\ k = "user_id") ->
            get_state (handoff kind context w) c' k = get_state w c' k
        else
          own_writes kind context w = [] /\ handoff kind context w = w
    | None =>
        own_writes kind context w = [] /\ handoff kind context w = w
    end.
Proof.
  destruct (get_user_id_returns w) as [v Hv]. exists v.
  split; [done|].
  rewrite (own_writes_published _ _ _ _ Hv), (handoff_published _ _ _ _ Hv).
  rewrite trace_published. split; [done|].
  split; [apply access_token_published|].
  split; [intros c'; apply has_session_published|].
  unfold published. destruct (fastmcp_context context) as [c|]; [|done].
  destruct (has_session w c) eqn:Hlive.
  - split; [done|]. intros c' k Hne.
    rewrite get_state_set_state by done. by rewrite decide_False.
  - split; [done|]. by rewrite set_state_no_session.
Qed.

(** C4, as stated: every intercepted call is forwarded to the next stage.
    It fails for a call whose [Context] has no session: the hook awaits
    [set_state] before [call_next] and has no handler, so the call ends
    with the [RuntimeError] and the next stage, which would have returned,
    is not started. *)
Lemma write_failure_stops_the_call :
  ~ (exists w',
       intercept ToolCall (tool_request (Some 9%positive)) done_stage
         (world_of (Some (token_of "u1")))
       = done_stage (tool_request (Some 9%positive)) w').
Proof.
  intros [w' H]. rewrite intercept_raises in H by reflexivity.
  discriminate H.
Qed.

(** C4, amended. When the guarded write is skipped or goes through, both
    hooks forward the call to the next stage, with the context they were
    given, and their outcome and final world are the ones of the next
    stage: whatever the token, nothing is rejected, short-circuited or
    changed on the way back.  The one other case is a write that fails:
    the exception of [set_state] is not handled and ends the call. *)
Theorem call_forwarded_unless_write_fails kind context w :
  forall (R : Type) (next : MiddlewareContext -> M R),
    intercept kind context next w =
      if write_succeeds w context
      then next context (handoff kind context w)
      else (Raised "RuntimeError", w).
Proof.
  intros R next. destruct (write_succeeds w context) eqn:Hw.
  - destruct (get_user_id_returns w) as [v Hv].
    rewrite (handoff_published _ _ _ _ Hv). by apply intercept_run.
  - by apply intercept_raises.
Qed.

(** C10. The hook for tool calls and the hook for resource reads are the
    same computation: for every context, next stage and world they resolve
    the same identity through [_get_user_id], perform the same guarded
    write and give the same outcome. *)
Theorem hooks_agree (R : Type) context (next : MiddlewareContext -> M R) w :
  on_call_tool context next w = on_read_resource context next w /\
  handoff ToolCall context w = handoff ResourceRead context w /\
  own_writes ToolCall context w = own_writes ResourceRead context w.
Proof.
  destruct (get_user_id_returns w) as [v Hv].
  split; [|split].
  - change (intercept ToolCall context next w =
            intercept ResourceRead context next w).
    destruct (write_succeeds w context) eqn:Hw.
    + by rewrite !(intercept_run _ _ _ _ v Hv Hw).
    + by rewrite !(intercept_raises _ _ _ _ Hw).
  - by rewrite !(handoff_published _ _ _ _ Hv).
  - by rewrite !(own_writes_published _ _ _ _ Hv).
Qed.

(** ** Properties of the encoding *)

Section Encoding.

Lemma string_app_assoc (s1 s2 s3 : string) :
  (s1 +:+ s2) +:+ s3 = s1 +:+ (s2 +:+ s3).
Proof.
  induction s1 as [|a s1 IH]; [done|].
  change (String a ((s1 +:+ s2) +:+ s3) = String a (s1 +:+ (s2 +:+ s3))).
  by f_equal.
Qed.

Lemma string_app_empty s : s +:+ "" = s.
Proof.
  induction s as [|a s IH]; [done|].
  change (String a (s +:+ "") = String a s). by f_equal.
Qed.

Lemma utf8_run_app s : forall st t,
  utf8_run st (s +:+ t) = utf8_run (utf8_run st s) t.
Proof.
  induction s as [|a s IH]; intros st t; [done|]. exact (IH _ t).
Qed.

Lemma utf8_run_failed s : utf8_run None s = None.
Proof. induction s as [|a s IH]; [done|]. exact IH. Qed.

Lemma ascii_gate_idem st : ascii_gate (ascii_gate st) = ascii_gate st.
Proof. by destruct st as [[]|]. Qed.

(** A character of ASCII is accepted where a character starts, and
    nowhere else. *)
Lemma utf8_step_ascii a q :
  is_ascii a = true -> utf8_step q a = ascii_gate (Some q).
Proof.
  destruct a as [[] [] [] [] [] [] [] []]; intros H; vm_compute in H;
    try discriminate H; by destruct q.
Qed.

Lemma utf8_run_ascii_char a st s :
  is_ascii a = true -> utf8_run st (String a s) = utf8_run (ascii_gate st) s.
Proof.
  intros H. destruct st as [q|]; [|reflexivity].
  change (utf8_run (utf8_step q a) s = utf8_run (ascii_gate (Some q)) s).
  by rewrite (utf8_step_ascii _ _ H).
Qed.

Lemma utf8_run_ascii_text t :
  ascii_text t = true ->
  forall st, utf8_run (ascii_gate st) t = ascii_gate st.
Proof.
  induction t as [|a t IH]; intros H st; [done|].
  apply andb_prop in H as [Ha Ht].
  rewrite utf8_run_ascii_char, ascii_gate_idem by done. by apply IH.
Qed.

(** Escaping changes nothing for the encoder: an escape is ASCII and
    stands for a character of ASCII. *)
Lemma utf8_run_escape_char a t st :
  utf8_run st (escape_char a +:+ t) = utf8_run st (String a t).
Proof.
  destruct a as [[] [] [] [] [] [] [] []];
    first [reflexivity | by destruct st as [[]|]].
Qed.

Lemma utf8_run_escape s : forall st t,
  utf8_run st (escape s +:+ t) = utf8_run st (s +:+ t).
Proof.
  induction s as [|a s IH]; intros st t; [done|].
  change (escape (String a s)) with (escape_char a +:+ escape s).
  rewrite string_app_assoc, utf8_run_escape_char. exact (IH _ t).
Qed.

Lemma gate_valid s st :
  ascii_gate (utf8_run (ascii_gate st) s) =
    if valid_utf8 s then ascii_gate st else None.
Proof.
  unfold valid_utf8.
  destruct st as [[]|]; cbn [ascii_gate]; rewrite ?utf8_run_failed;
    by destruct (utf8_run (Some Utf8Start) s) as [[]|].
Qed.

Lemma utf8_run_quote s st t :
  utf8_run st (quote s +:+ t) =
    utf8_run (if valid_utf8 s then ascii_gate st else None) t.
Proof.
  unfold quote. rewrite !string_app_assoc.
  change (dq +:+ ?x) with (String "034" x).
  rewrite utf8_run_ascii_char by reflexivity.
  rewrite utf8_run_escape, utf8_run_app.
  change (dq +:+ t) with (String "034" t).
  rewrite utf8_run_ascii_char by reflexivity. by rewrite gate_valid.
Qed.

Lemma utf8_run_elements l :
  Forall (fun j => forall st,
            utf8_run st (dumps j) =
              if all_text j then ascii_gate st else None) l ->
  l <> [] ->
  forall st,
    utf8_run st (join "," (map dumps l)) =
      if forallb all_text l then ascii_gate st else None.
Proof.
  induction l as [|x [|y l] IH]; intros Hall Hne st; [done| |].
  - apply Forall_inv in Hall.
    change (join "," (map dumps [x])) with (dumps x). rewrite Hall.
    change (forallb all_text [x]) with (all_text x && true).
    by rewrite andb_true_r.
  - pose proof (Forall_inv Hall) as Hx. apply Forall_inv_tail in Hall.
    change (join "," (map dumps (x :: y :: l)))
      with (dumps x +:+ "," +:+ join "," (map dumps (y :: l))).
    rewrite utf8_run_app, Hx.
    change ("," +:+ ?t) with (String "," t).
    rewrite utf8_run_ascii_char by reflexivity. rewrite IH by done.
    change (forallb all_text (x :: y :: l))
      with (all_text x && forallb all_text (y :: l)).
    destruct (all_text x), (forallb all_text (y :: l)); simpl;
      by rewrite ?ascii_gate_idem.
Qed.

Lemma utf8_run_members l :
  Forall (fun kv => forall st,
            utf8_run st (dumps kv.2) =
              if all_text kv.2 then ascii_gate st else None) l ->
  l <> [] ->
  forall st,
    utf8_run st
      (join "," (map (fun kv => quote kv.1 +:+ ":" +:+ dumps kv.2) l)) =
      if forallb (fun kv => valid_utf8 kv.1 && all_text kv.2) l
      then ascii_gate st else None.
Proof.
  assert (forall k v st,
            (forall st, utf8_run st (dumps v) =
                          if all_text v then ascii_gate st else None) ->
            utf8_run st (quote k +:+ ":" +:+ dumps v) =
              if valid_utf8 k && all_text v then ascii_gate st else None)
    as Hone.
  { intros k v st Hv. rewrite utf8_run_quote.
    change (":" +:+ ?t) with (String ":" t).
    rewrite utf8_run_ascii_char by reflexivity. rewrite Hv.
    destruct (valid_utf8 k), (all_text v); simpl;
      by rewrite ?ascii_gate_idem. }
  induction l as [|[k v] [|y l] IH]; intros Hall Hne st; [done| |].
  - apply Forall_inv in Hall. simpl in Hall.
    change (join "," (map (fun kv => quote kv.1 +:+ ":" +:+ dumps kv.2)
                        [(k, v)]))
      with (quote k +:+ ":" +:+ dumps v).
    rewrite (Hone _ _ _ Hall).
    change (forallb (fun kv => valid_utf8 kv.1 && all_text kv.2) [(k, v)])
      with (valid_utf8 k && all_text v && true).
    by rewrite andb_true_r.
  - pose proof (Forall_inv Hall) as Hx. apply Forall_inv_tail in Hall.
    simpl in Hx.
    change (join "," (map (fun kv => quote kv.1 +:+ ":" +:+ dumps kv.2)
                        ((k, v) :: y :: l)))
      with ((quote k +:+ ":" +:+ dumps v) +:+ "," +:+
            join "," (map (fun kv => quote kv.1 +:+ ":" +:+ dumps kv.2)
                        (y :: l))).
    rewrite utf8_run_app, (Hone _ _ _ Hx).
    change ("," +:+ ?t) with (String "," t).
    rewrite utf8_run_ascii_char by reflexivity. rewrite IH by done.
    change (forallb (fun kv => valid_utf8 kv.1 && all_text kv.2)
              ((k, v) :: y :: l))
      with (valid_utf8 k && all_text v &&
            forallb (fun kv => valid_utf8 kv.1 && all_text kv.2) (y :: l)).
    destruct (valid_utf8 k && all_text v),
      (forallb (fun kv => valid_utf8 kv.1 && all_text kv.2) (y :: l));
      simpl; by rewrite ?ascii_gate_idem.
Qed.

(** Induction on documents, with the elements of an array and the values
    of an object as smaller documents. *)
Lemma json_nested_ind (P : json -> Prop) :
  P JNull -> (forall b, P (JBool b)) -> (forall s, P (JStr s)) ->
  (forall l, Forall P l -> P (JArr l)) ->
  (forall l, Forall (fun kv => P kv.2) l -> P (JObj l)) ->
  forall j, P j.
Proof.
  intros Hnull Hbool Hstr Harr Hobj. fix IH 1. intros [|b|s|l|l].
  - exact Hnull.
  - apply Hbool.
  - apply Hstr.
  - apply Harr. induction l as [|x l IHl]; constructor; [apply IH | exact IHl].
  - apply Hobj. induction l as [|[k v] l IHl]; constructor;
      [apply IH | exact IHl].
Qed.

(** The text of a document is ASCII around its strings: the encoder
    accepts it where a character starts, when every string is text. *)
Lemma utf8_run_dumps j : forall st,
  utf8_run st (dumps j) = if all_text j then ascii_gate st else None.
Proof.
  induction j as [|b|s|l IH|l IH] using json_nested_ind; intros st.
  - by destruct st as [[]|].
  - by destruct b, st as [[]|].
  - change (dumps (JStr s)) with (quote s).
    rewrite <- (string_app_empty (quote s)), utf8_run_quote.
    change (all_text (JStr s)) with (valid_utf8 s).
    by destruct (valid_utf8 s).
  - destruct l as [|x l]; [by destruct st as [[]|]|].
    change (dumps (JArr (x :: l)))
      with (String "[" (join "," (map dumps (x :: l)) +:+ "]")).
    rewrite utf8_run_ascii_char by reflexivity.
    rewrite utf8_run_app, utf8_run_elements by done.
    change (all_text (JArr (x :: l))) with (forallb all_text (x :: l)).
    destruct (forallb all_text (x :: l)); [|reflexivity].
    rewrite ascii_gate_idem. by destruct st as [[]|].
  - destruct l as [|[k v] l]; [by destruct st as [[]|]|].
    change (dumps (JObj ((k, v) :: l)))
      with (String "{"
              (join ","
                 (map (fun kv => quote kv.1 +:+ ":" +:+ dumps kv.2)
                    ((k, v) :: l)) +:+ "}")).
    rewrite utf8_run_ascii_char by reflexivity.
    rewrite utf8_run_app, utf8_run_members by done.
    change (all_text (JObj ((k, v) :: l)))
      with (forallb (fun kv => valid_utf8 kv.1 && all_text kv.2)
              ((k, v) :: l)).
    destruct (forallb _ ((k, v) :: l)); [|reflexivity].
    rewrite ascii_gate_idem. by destruct st as [[]|].
Qed.

Lemma valid_utf8_dumps j : valid_utf8 (dumps j) = all_text j.
Proof.
  unfold valid_utf8. rewrite utf8_run_dumps. by destruct (all_text j).
Qed.

(** A text followed by ASCII is well formed when the text is. *)
Lemma valid_utf8_app_ascii s t :
  ascii_text t = true -> valid_utf8 (s +:+ t) = valid_utf8 s.
Proof.
  intros H. unfold valid_utf8. rewrite utf8_run_app.
  destruct t as [|a t]; [reflexivity|]. apply andb_prop in H as [Ha Ht].
  rewrite utf8_run_ascii_char, utf8_run_ascii_text by done.
  by destruct (utf8_run (Some Utf8Start) s) as [[]|].
Qed.

(** [JSONResponse.render] raises exactly when a string of the content is
    not text. *)
Lemma render_outcome j :
  render j =
    if all_text j then Returned (dumps j) else Raised "UnicodeEncodeError".
Proof. unfold render, encode_utf8. by rewrite valid_utf8_dumps. Qed.

Lemma all_text_discovery realm :
  all_text (discovery_document realm) = valid_utf8 realm.
Proof.
  unfold discovery_document.
  cbn [all_text forallb fst snd].
  rewrite !valid_utf8_app_ascii by reflexivity.
  by destruct (valid_utf8 realm).
Qed.

(** The outcome of the discovery route, for every realm URL. *)
Lemma openid_configuration_outcome realm request :
  openid_configuration realm request =
    if valid_utf8 realm
    then Returned {| content := discovery_document realm;
                     status_code := 200;
                     media_type := "application/json";
                     body := dumps (discovery_document realm) |}
    else Raised "UnicodeEncodeError".
Proof.
  unfold openid_configuration, json_response.
  rewrite render_outcome, all_text_discovery.
  by destruct (valid_utf8 realm).
Qed.

End Encoding.

(** ** Properties of the custom routes *)

(** Rendering on samples: the escapes of [json.dumps], and the encoding. *)

Example escape_controls :
  escape (String "001"%char (String "031"%char "x")) = "\u0001\u001fx".
Proof. reflexivity. Qed.

Example dumps_nested :
  dumps (JObj [("a", JArr [JStr "x"; JNull; JBool true]); ("b", JObj [])])
  = "{" +:+ quoted "a" +:+ ":[" +:+ quoted "x" +:+ ",null,true]," +:+
    quoted "b" +:+ ":{}}".
Proof. reflexivity. Qed.

(** [é] in UTF-8 is text; its first byte alone, an overlong slash and an
    encoded surrogate are not. *)
Example valid_utf8_samples :
  valid_utf8 (String "195" (String "169" "")) = true /\
  valid_utf8 (String "195" "") = false /\
  valid_utf8 (String "192" (String "175" "")) = false /\
  valid_utf8 (String "237" (String "160" (String "128" ""))) = false.
Proof. repeat split. Qed.

Example render_not_text :
  render (JStr (String "255" "")) = Raised "UnicodeEncodeError".
Proof. reflexivity. Qed.

(** A realm URL with a byte that is not UTF-8: the discovery route
    raises, whatever the request. *)
Example discovery_realm_not_text :
  openid_configuration ("http://kc/realms/" +:+ String "255" "")
    (get_request "/.well-known/openid-configuration" [])
  = Raised "UnicodeEncodeError".
Proof. reflexivity. Qed.

(** C7. Whatever the request, with or without credentials, [/health]
    answers with status 200 and the fixed payload; the handler reads
    nothing but its argument, so the answer cannot depend on the identity
    provider. *)
Theorem health_check_fixed (request : Request) :
  exists response,
    health_check request = Returned response /\
    status_code response = 200%Z /\
    media_type response = "application/json" /\
    content response =
      JObj [("status", JStr "healthy"); ("service", JStr "mcp-server")] /\
    body response = health_payload.
Proof. eexists. split; [reflexivity|]. repeat split. Qed.

Section DiscoveryFacts.

Variable realm : string.

(** C5. For the configured realm URL the discovery document names the
    issuer and the five provider endpoints derived from it, and the fixed
    lists of capabilities; it is the content of the response, which has
    status 200 (for a realm URL that is not text there is no response:
    the constructor of the response raises). *)
Theorem discovery_document_fields (request : Request) :
  let doc := discovery_document realm in
  openid_configuration realm request =
    (if valid_utf8 realm
     then Returned {| content := doc; status_code := 200;
                      media_type := "application/json";
                      body := dumps doc |}
     else Raised "UnicodeEncodeError") /\
  keys doc =
    [ "issuer"; "authorization_endpoint"; "token_endpoint";
      "userinfo_endpoint"; "jwks_uri"; "registration_endpoint";
      "scopes_supported"; "response_types_supported";
      "grant_types_supported"; "token_endpoint_auth_methods_supported";
      "code_challenge_methods_supported" ] /\
  field doc "issuer" = Some (JStr realm) /\
  field doc "authorization_endpoint" =
    Some (JStr (realm +:+ "/protocol/openid-connect/auth")) /\
  field doc "token_endpoint" =
    Some (JStr (realm +:+ "/protocol/openid-connect/token")) /\
  field doc "userinfo_endpoint" =
    Some (JStr (realm +:+ "/protocol/openid-connect/userinfo")) /\
  field doc "jwks_uri" =
    Some (JStr (realm +:+ "/protocol/openid-connect/certs")) /\
  field doc "registration_endpoint" =
    Some (JStr (realm +:+ "/clients-registrations/openid-connect")) /\
  field doc "scopes_supported" =
    Some (JArr [JStr "openid"; JStr "profile"; JStr "email";
                JStr "mcp:access"]) /\
  field doc "response_types_supported" = Some (JArr [JStr "code"]) /\
  field doc "grant_types_supported" =
    Some (JArr [JStr "authorization_code"; JStr "refresh_token"]) /\
  field doc "token_endpoint_auth_methods_supported" =
    Some (JArr [JStr "client_secret_basic"; JStr "client_secret_post"]) /\
  field doc "code_challenge_methods_supported" = Some (JArr [JStr "S256"]).
Proof. split; [apply openid_configuration_outcome|]. repeat split. Qed.

(** C6. The discovery response is a function of the realm URL alone: any
    two requests, and so every request of any sequence of requests, get
    the same outcome, and with it the same response and the same bytes. *)
Theorem discovery_deterministic (r1 r2 : Request) (requests : list Request) :
  openid_configuration realm r1 = openid_configuration realm r2 /\
  (forall resp1 resp2,
      openid_configuration realm r1 = Returned resp1 ->
      openid_configuration realm r2 = Returned resp2 ->
      resp1 = resp2 /\ body resp1 = body resp2) /\
  Forall (fun out => out = openid_configuration realm r1)
    (map (openid_configuration realm) requests).
Proof.
  split; [reflexivity|]. split.
  - intros resp1 resp2 H1 H2.
    change (openid_configuration realm r2) with (openid_configuration realm r1)
      in H2.
    rewrite H1 in H2. injection H2 as <-. by split.
  - apply Forall_map, Forall_forall. intros r _. reflexivity.
Qed.

End DiscoveryFacts.

(** ** Properties of the tool *)

Section Timestamps.

Local Open Scope Z_scope.

Lemma parse_digit_char d :
  0 <= d <= 9 -> parse_digit (digit_char d) = Some d.
Proof.
  intros Hd.
  assert (d = 0 \/ d = 1 \/ d = 2 \/ d = 3 \/ d = 4 \/ d = 5 \/ d = 6 \/
          d = 7 \/ d = 8 \/ d = 9) as Hcases by lia.
  repeat (destruct Hcases as [-> | Hcases]; [reflexivity|]).
  subst d. reflexivity.
Qed.

Lemma fixed_digits_app k : forall n tail,
  fixed_digits k n tail = zpad k n +:+ tail.
Proof.
  unfold zpad. induction k as [|k IH]; intros n tail; simpl; [done|].
  rewrite (IH (n / 10) (String _ tail)), (IH (n / 10) (String _ "")).
  by rewrite string_app_assoc.
Qed.

(** Reading [k + 1] digits is reading [k] digits and then one more. *)
Lemma parse_digits_S k : forall acc s,
  parse_digits (S k) acc s =
    match parse_digits k acc s with
    | Some (m, String a s') =>
        match parse_digit a with
        | Some d => Some (m * 10 + d, s')
        | None => None
        end
    | _ => None
    end.
Proof.
  induction k as [|k IH]; intros acc s.
  - simpl. destruct s as [|a s']; [done|]. by destruct (parse_digit a).
  - change (parse_digits (S (S k)) acc s) with
      (match s with
       | String a s' =>
           match parse_digit a with
           | Some d => parse_digits (S k) (acc * 10 + d) s'
           | None => None
           end
       | EmptyString => None
       end).
    destruct s as [|a s']; [done|]. simpl parse_digits at 2.
    destruct (parse_digit a) as [d|]; [|done]. apply IH.
Qed.

Lemma parse_fixed_digits k : forall n acc tail,
  0 <= n < 10 ^ Z.of_nat k ->
  parse_digits k acc (fixed_digits k n tail) =
    Some (acc * 10 ^ Z.of_nat k + n, tail).
Proof.
  induction k as [|k IH]; intros n acc tail Hn.
  - simpl in *. f_equal. f_equal. lia.
  - rewrite parse_digits_S.
    change (fixed_digits (S k) n tail) with
      (fixed_digits k (n / 10) (String (digit_char (n mod 10)) tail)).
    rewrite Nat2Z.inj_succ, Z.pow_succ_r in * by lia.
    rewrite IH by (split; [apply Z.div_pos; lia
                          | apply Z.div_lt_upper_bound; lia]).
    rewrite parse_digit_char by (pose proof (Z.mod_pos_bound n 10); lia).
    f_equal. f_equal. pose proof (Z.div_mod n 10). lia.
Qed.

Lemma parse_zpad k n acc rest :
  0 <= n < 10 ^ Z.of_nat k ->
  parse_digits k acc (zpad k n +:+ rest) =
    Some (acc * 10 ^ Z.of_nat k + n, rest).
Proof. intros Hn. rewrite <- fixed_digits_app. by apply parse_fixed_digits. Qed.

Lemma days_in_month_le y m : days_in_month y m <= 31.
Proof.
  unfold days_in_month.
  repeat match goal with |- context [if ?b then _ else _] => destruct b end;
    lia.
Qed.

Lemma between_spec lo x hi : between lo x hi = true <-> lo <= x <= hi.
Proof. unfold between. rewrite andb_true_iff, !Z.leb_le. tauto. Qed.

Lemma expect_app a rest : expect a (String a "" +:+ rest) = Some rest.
Proof. simpl. by rewrite Ascii.eqb_refl. Qed.

Lemma option_bind_Some {A B : Type} (f : A -> option B) (x : A) :
  Some x ≫= f = f x.
Proof. reflexivity. Qed.

Lemma parse_fraction_zpad us :
  0 <= us <= 999999 ->
  parse_fraction (if us =? 0 then "" else "." +:+ zpad 6 us) = Some us.
Proof.
  intros Hus. destruct (us =? 0) eqn:E.
  - apply Z.eqb_eq in E. by subst us.
  - change ("." +:+ zpad 6 us) with (String "." (fixed_digits 6 us "")).
    unfold parse_fraction.
    change (expect "." (String "." (fixed_digits 6 us "")))
      with (Some (fixed_digits 6 us "")).
    rewrite option_bind_Some, parse_fixed_digits by (simpl; lia).
    rewrite option_bind_Some. cbv beta iota.
    replace (0 * 10 ^ Z.of_nat 6 + us) with us by lia.
    by rewrite E.
Qed.

(** One field of the timestamp, or one separator, read back. *)
Ltac read_back :=
  first [ rewrite parse_zpad by (simpl; lia) | rewrite expect_app ];
  rewrite option_bind_Some; cbv beta iota.

(** Every valid instant is read back from its ISO text. *)
Lemma parse_isoformat dt :
  valid_datetime dt = true -> parse_iso8601 (isoformat dt) = Some dt.
Proof.
  intros Hv. pose proof Hv as Hv'.
  unfold valid_datetime in Hv'.
  rewrite !andb_true_iff, !between_spec in Hv'.
  destruct Hv' as [[[[[[Hy Hm] Hd] Hh] Hmi] Hs] Hus].
  pose proof (days_in_month_le (year dt) (month dt)) as Hdim.
  unfold parse_iso8601, isoformat.
  do 11 read_back.
  rewrite parse_fraction_zpad, option_bind_Some by done.
  replace (0 * 10 ^ Z.of_nat 4 + year dt) with (year dt) by lia.
  replace (0 * 10 ^ Z.of_nat 2 + month dt) with (month dt) by lia.
  replace (0 * 10 ^ Z.of_nat 2 + day dt) with (day dt) by lia.
  replace (0 * 10 ^ Z.of_nat 2 + hour dt) with (hour dt) by lia.
  replace (0 * 10 ^ Z.of_nat 2 + minute dt) with (minute dt) by lia.
  replace (0 * 10 ^ Z.of_nat 2 + second dt) with (second dt) by lia.
  destruct dt; simpl in *. by rewrite Hv.
Qed.

End Timestamps.

(** The timestamp format on sample instants. *)

Example isoformat_with_microseconds :
  isoformat leap_day_morning = "2024-02-29T07:05:09.000120".
Proof. reflexivity. Qed.

Example isoformat_whole_second :
  isoformat {| year := 987; month := 12; day := 1; hour := 0; minute := 0;
               second := 59; microsecond := 0 |}
  = "0987-12-01T00:00:59".
Proof. reflexivity. Qed.

Example not_a_calendar_date : iso8601_wf "2023-02-29T00:00:00" = false.
Proof. reflexivity. Qed.

Example not_a_timestamp : iso8601_wf "yesterday" = false.
Proof. reflexivity. Qed.

Example float_sum_sample : (0.5 + 0.25 = 0.75)%float.
Proof. reflexivity. Qed.

(** C8. For all numbers [a] and [b] the record built by [add_numbers] has
    the five fields [operation], [operand_a], [operand_b], [result] and
    [timestamp]; they hold ["addition"], [a], [b], the sum [a + b] and the
    well-formed ISO-8601 text of the instant at which the clock was read.
    For 2 and 3 the result is 5. *)
Theorem add_numbers_record (a b : float) (now : datetime) :
  valid_datetime now = true ->
  let r := add_numbers a b now in
  map fst r =
    ["operation"; "operand_a"; "operand_b"; "result"; "timestamp"] /\
  dict_get r "operation" = Some (VStr "addition") /\
  dict_get r "operand_a" = Some (VFloat a) /\
  dict_get r "operand_b" = Some (VFloat b) /\
  dict_get r "result" = Some (VFloat (a + b)) /\
  (exists ts, dict_get r "timestamp" = Some (VStr ts) /\
              iso8601_wf ts = true /\ parse_iso8601 ts = Some now) /\
  dict_get (add_numbers 2 3 now) "result" = Some (VFloat 5).
Proof.
  intros Hv. repeat split.
  exists (isoformat now). split; [reflexivity|].
  unfold iso8601_wf. by rewrite (parse_isoformat _ Hv).
Qed.

Lemma add_numbers_record_witness :
  let r := add_numbers 2 3 leap_day_morning in
  map fst r =
    ["operation"; "operand_a"; "operand_b"; "result"; "timestamp"] /\
  dict_get r "operation" = Some (VStr "addition") /\
  dict_get r "operand_a" = Some (VFloat 2) /\
  dict_get r "operand_b" = Some (VFloat 3) /\
  dict_get r "result" = Some (VFloat (2 + 3)) /\
  (exists ts, dict_get r "timestamp" = Some (VStr ts) /\
              iso8601_wf ts = true /\
              parse_iso8601 ts = Some leap_day_morning) /\
  dict_get (add_numbers 2 3 leap_day_morning) "result" = Some (VFloat 5).
Proof. apply (add_numbers_record 2 3 leap_day_morning). reflexivity. Defined.

(** ** Properties of the start-up configuration *)

Section Startup.

Implicit Types (environ dotenv : gmap string string).

Ltac by_cases_on_char a :=
  destruct a as [[] [] [] [] [] [] [] []]; vm_compute;
  (split; [intros H; first [discriminate H | auto] | intros [H | H]; congruence]).

Lemma lower_char_t a : lower_char a = "t"%char <-> a = "t"%char \/ a = "T"%char.
Proof. by_cases_on_char a. Qed.

Lemma lower_char_r a : lower_char a = "r"%char <-> a = "r"%char \/ a = "R"%char.
Proof. by_cases_on_char a. Qed.

Lemma lower_char_u a : lower_char a = "u"%char <-> a = "u"%char \/ a = "U"%char.
Proof. by_cases_on_char a. Qed.

Lemma lower_char_e a : lower_char a = "e"%char <-> a = "e"%char \/ a = "E"%char.
Proof. by_cases_on_char a. Qed.

Lemma lower_is_true (v : string) :
  lower v = "true" <->
  exists a b c d,
    v = String a (String b (String c (String d ""))) /\
    (a = "t" \/ a = "T")%char /\ (b = "r" \/ b = "R")%char /\
    (c = "u" \/ c = "U")%char /\ (d = "e" \/ d = "E")%char.
Proof.
  split.
  - destruct v as [|a [|b [|c [|d [|x v]]]]]; simpl; intros H;
      try discriminate H.
    injection H as Ha Hb Hc Hd. exists a, b, c, d.
    rewrite <- lower_char_t, <- lower_char_r, <- lower_char_u,
      <- lower_char_e. done.
  - intros (a & b & c & d & -> & Ha & Hb & Hc & Hd). simpl.
    apply lower_char_t in Ha. apply lower_char_r in Hb.
    apply lower_char_u in Hc. apply lower_char_e in Hd.
    by rewrite Ha, Hb, Hc, Hd.
Qed.

(** The production flag is set exactly by the sixteen spellings of
    [true]: an unset variable, [1], [yes], or [true] with a blank around it
    leave the server in development mode. *)
Theorem production_flag_spelling environ :
  running_in_production environ = true <->
  exists a b c d,
    environ !! "RUNNING_IN_PRODUCTION" =
      Some (String a (String b (String c (String d "")))) /\
    (a = "t" \/ a = "T")%char /\ (b = "r" \/ b = "R")%char /\
    (c = "u" \/ c = "U")%char /\ (d = "e" \/ d = "E")%char.
Proof.
  unfold running_in_production, getenv. rewrite String.eqb_eq.
  destruct (environ !! "RUNNING_IN_PRODUCTION") as [v|]; simpl.
  - rewrite lower_is_true. split.
    + intros (a & b & c & d & -> & H). by exists a, b, c, d.
    + intros (a & b & c & d & Hv & H). injection Hv as ->.
      by exists a, b, c, d.
  - split; [discriminate|]. by intros (a & b & c & d & Hv & _).
Qed.

Lemma load_module_returned environ dotenv s :
  load_module environ dotenv = Returned s ->
  let env := if running_in_production environ then environ
             else load_dotenv dotenv environ in
  RUNNING_IN_PRODUCTION s = running_in_production environ /\
  env !! "KEYCLOAK_REALM_URL" = Some (KEYCLOAK_REALM_URL s) /\
  (if running_in_production environ
   then env !! "KEYCLOAK_MCP_SERVER_BASE_URL" = Some (keycloak_base_url s)
   else keycloak_base_url s = "http://localhost:8000") /\
  keycloak_audience s =
    str_or (env !! "KEYCLOAK_MCP_SERVER_AUDIENCE") "mcp-server" /\
  keycloak_initial_access_token s = env !! "KEYCLOAK_INITIAL_ACCESS_TOKEN" /\
  auth s = {| realm_url := KEYCLOAK_REALM_URL s;
              base_url := keycloak_base_url s;
              required_scopes := ["openid"; "mcp:access"];
              audience := keycloak_audience s;
              initial_access_token := keycloak_initial_access_token s |}.
Proof.
  unfold load_module, environ_item, getenv.
  destruct (running_in_production environ); simpl.
  - destruct (environ !! "KEYCLOAK_REALM_URL") as [u|]; [|discriminate].
    destruct (environ !! "KEYCLOAK_MCP_SERVER_BASE_URL") as [b|];
      [|discriminate].
    intros [= <-]. simpl. done.
  - destruct (load_dotenv dotenv environ !! "KEYCLOAK_REALM_URL") as [u|];
      [|discriminate].
    intros [= <-]. simpl. done.
Qed.

(** The mode is decided by the environment of the process alone, before
    the [.env] file is read: no binding of the file can switch the server
    to production.  In development the base URL is the local one. *)
Theorem mode_from_process_environment environ dotenv s :
  load_module environ dotenv = Returned s ->
  RUNNING_IN_PRODUCTION s = running_in_production environ /\
  (RUNNING_IN_PRODUCTION s = false ->
   keycloak_base_url s = "http://localhost:8000" /\
   base_url (auth s) = "http://localhost:8000").
Proof.
  intros H. apply load_module_returned in H.
  destruct H as (Hp & _ & Hb & _ & _ & Ha). split; [done|].
  rewrite Hp. intros Hdev. rewrite Hdev in Hb. by rewrite Ha.
Qed.

Lemma mode_from_process_environment_witness :
  exists s,
    load_module dev_environ dev_dotenv = Returned s /\
    RUNNING_IN_PRODUCTION s = running_in_production dev_environ /\
    (RUNNING_IN_PRODUCTION s = false ->
     keycloak_base_url s = "http://localhost:8000" /\
     base_url (auth s) = "http://localhost:8000").
Proof.
  eexists. split; [vm_compute; reflexivity|].
  apply (mode_from_process_environment dev_environ dev_dotenv).
  vm_compute. reflexivity.
Defined.

(** In development a base URL given in the environment or in the [.env]
    file is never used. *)
Theorem development_ignores_base_url environ dotenv b b' :
  running_in_production environ = false ->
  load_module (<["KEYCLOAK_MCP_SERVER_BASE_URL" := b]> environ)
              (<["KEYCLOAK_MCP_SERVER_BASE_URL" := b']> dotenv)
  = load_module environ dotenv.
Proof.
  intros Hdev. unfold load_module.
  assert (running_in_production
            (<["KEYCLOAK_MCP_SERVER_BASE_URL" := b]> environ) = false) as ->.
  { unfold running_in_production, getenv in *.
    by rewrite lookup_insert_ne. }
  rewrite Hdev. unfold environ_item, getenv, load_dotenv.
  by rewrite !lookup_union, !lookup_insert_ne.
Qed.

Lemma development_ignores_base_url_witness :
  load_module (<["KEYCLOAK_MCP_SERVER_BASE_URL" := "https://a.test"]>
                 dev_environ)
              (<["KEYCLOAK_MCP_SERVER_BASE_URL" := "https://b.test"]>
                 dev_dotenv)
  = load_module dev_environ dev_dotenv.
Proof.
  apply (development_ignores_base_url dev_environ dev_dotenv).
  vm_compute. reflexivity.
Defined.

(** In production the [.env] file is not read: the configuration is the
    one of the process environment, whatever the file binds. *)
Theorem production_ignores_dotenv environ dotenv :
  running_in_production environ = true ->
  load_module environ dotenv = load_module environ ∅.
Proof. intros Hprod. unfold load_module. by rewrite Hprod. Qed.

Lemma production_ignores_dotenv_witness :
  load_module prod_environ dev_dotenv = load_module prod_environ ∅.
Proof.
  apply (production_ignores_dotenv prod_environ dev_dotenv).
  vm_compute. reflexivity.
Defined.

(** In development every variable is taken from the [.env] file when the
    file binds it, and from the process environment otherwise. *)
Theorem development_dotenv_first environ dotenv s :
  running_in_production environ = false ->
  load_module environ dotenv = Returned s ->
  Some (KEYCLOAK_REALM_URL s) =
    dotenv !! "KEYCLOAK_REALM_URL" ∪ environ !! "KEYCLOAK_REALM_URL" /\
  keycloak_initial_access_token s =
    dotenv !! "KEYCLOAK_INITIAL_ACCESS_TOKEN" ∪
    environ !! "KEYCLOAK_INITIAL_ACCESS_TOKEN" /\
  keycloak_audience s =
    str_or (dotenv !! "KEYCLOAK_MCP_SERVER_AUDIENCE" ∪
            environ !! "KEYCLOAK_MCP_SERVER_AUDIENCE") "mcp-server".
Proof.
  intros Hdev H. apply load_module_returned in H. rewrite Hdev in H.
  destruct H as (_ & Hu & _ & Haud & Hiat & _).
  unfold load_dotenv in *. rewrite lookup_union in Hu, Haud, Hiat.
  by rewrite Hu, Haud, Hiat.
Qed.

Lemma development_dotenv_first_witness :
  exists s,
    load_module dev_environ dev_dotenv = Returned s /\
    Some (KEYCLOAK_REALM_URL s) =
      dev_dotenv !! "KEYCLOAK_REALM_URL" ∪
      dev_environ !! "KEYCLOAK_REALM_URL" /\
    keycloak_initial_access_token s =
      dev_dotenv !! "KEYCLOAK_INITIAL_ACCESS_TOKEN" ∪
      dev_environ !! "KEYCLOAK_INITIAL_ACCESS_TOKEN" /\
    keycloak_audience s =
      str_or (dev_dotenv !! "KEYCLOAK_MCP_SERVER_AUDIENCE" ∪
              dev_environ !! "KEYCLOAK_MCP_SERVER_AUDIENCE") "mcp-server".
Proof.
  eexists. split; [vm_compute; reflexivity|].
  apply (development_dotenv_first dev_environ dev_dotenv);
    vm_compute; reflexivity.
Defined.

(** The realm of the file wins over the one of the process, and the flag
    of the file is not looked at. *)
Example dotenv_realm_wins :
  exists s,
    load_module dev_environ dev_dotenv = Returned s /\
    KEYCLOAK_REALM_URL s = "http://localhost:8080/realms/local" /\
    RUNNING_IN_PRODUCTION s = false.
Proof. eexists. vm_compute. repeat split. Qed.

(** Reading the configuration fails exactly when the realm URL is missing,
    or, in production, when the base URL is missing; the realm URL is
    looked up first, and these two [KeyError]s are the only failures of
    the configuration statements. *)
Theorem startup_fails_iff environ dotenv :
  ((exists e, load_module environ dotenv = Raised e) <->
   if running_in_production environ
   then environ !! "KEYCLOAK_REALM_URL" = None \/
        environ !! "KEYCLOAK_MCP_SERVER_BASE_URL" = None
   else environ !! "KEYCLOAK_REALM_URL" = None /\
        dotenv !! "KEYCLOAK_REALM_URL" = None) /\
  (forall e, load_module environ dotenv = Raised e ->
     e = "KeyError: KEYCLOAK_REALM_URL" \/
     (running_in_production environ = true /\
      is_Some (environ !! "KEYCLOAK_REALM_URL") /\
      e = "KeyError: KEYCLOAK_MCP_SERVER_BASE_URL")).
Proof.
  unfold load_module, environ_item, getenv, load_dotenv.
  destruct (running_in_production environ); simpl.
  - destruct (environ !! "KEYCLOAK_REALM_URL") as [u|];
      destruct (environ !! "KEYCLOAK_MCP_SERVER_BASE_URL") as [b|];
      (split; [split; [intros [e He]; first [discriminate He | auto]
                      | intros [H|H]; first [discriminate H | eauto]]
              | intros e [= <-]; eauto]).
  - rewrite lookup_union.
    destruct (dotenv !! "KEYCLOAK_REALM_URL") as [u|];
      destruct (environ !! "KEYCLOAK_REALM_URL") as [u'|]; simpl;
      (split; [split; [intros [e He]; first [discriminate He | auto]
                      | intros [H H']; first [discriminate | eauto]]
              | intros e [= <-]; eauto]).
Qed.

(** The audience handed to the provider is never empty: an unset or empty
    variable gives ["mcp-server"]. *)
Theorem audience_never_empty environ dotenv s :
  load_module environ dotenv = Returned s ->
  keycloak_audience s <> "" /\ audience (auth s) = keycloak_audience s.
Proof.
  intros H. apply load_module_returned in H.
  destruct H as (_ & _ & _ & Haud & _ & Ha). rewrite Ha. split; [|done].
  rewrite Haud. unfold str_or.
  by destruct (_ !! "KEYCLOAK_MCP_SERVER_AUDIENCE") as [[|a v]|].
Qed.

Lemma audience_never_empty_witness :
  exists s,
    load_module dev_environ dev_dotenv = Returned s /\
    keycloak_audience s <> "" /\ audience (auth s) = keycloak_audience s.
Proof.
  eexists. split; [vm_compute; reflexivity|].
  apply (audience_never_empty dev_environ dev_dotenv).
  vm_compute. reflexivity.
Defined.

(** What the discovery route announces agrees with what the provider is
    built from: the issuer is the provider's realm URL, and every scope the
    provider requires is among the supported scopes. *)
Theorem discovery_agrees_with_provider environ dotenv s request :
  load_module environ dotenv = Returned s ->
  let doc := discovery_document (KEYCLOAK_REALM_URL s) in
  (forall response,
      openid_configuration (KEYCLOAK_REALM_URL s) request = Returned response ->
      content response = doc) /\
  field doc "issuer" = Some (JStr (realm_url (auth s))) /\
  exists supported,
    field doc "scopes_supported" = Some (JArr supported) /\
    forall scope, scope ∈ required_scopes (auth s) ->
                  JStr scope ∈ supported.
Proof.
  intros H. apply load_module_returned in H.
  destruct H as (_ & _ & _ & _ & _ & Ha). rewrite Ha. simpl.
  split.
  { intros response. rewrite openid_configuration_outcome.
    destruct (valid_utf8 _); [|discriminate]. by intros [= <-]. }
  split; [done|]. eexists. split; [reflexivity|].
  intros scope Hs. rewrite !elem_of_cons in Hs. rewrite !elem_of_cons.
  destruct Hs as [-> | [-> | Hs]]; [tauto | tauto |].
  by apply elem_of_nil in Hs.
Qed.

Lemma discovery_agrees_with_provider_witness :
  exists s,
    load_module prod_environ ∅ = Returned s /\
    let doc := discovery_document (KEYCLOAK_REALM_URL s) in
    (forall response,
        openid_configuration (KEYCLOAK_REALM_URL s)
          (get_request "/.well-known/openid-configuration" [])
        = Returned response ->
        content response = doc) /\
    field doc "issuer" = Some (JStr (realm_url (auth s))) /\
    exists supported,
      field doc "scopes_supported" = Some (JArr supported) /\
      forall scope, scope ∈ required_scopes (auth s) ->
                    JStr scope ∈ supported.
Proof.
  eexists. split; [vm_compute; reflexivity|].
  apply (discovery_agrees_with_provider prod_environ ∅).
  vm_compute. reflexivity.
Defined.

End Startup.

(** ** Further properties of the middleware *)

Section MiddlewareInUse.

Implicit Types (w : World) (context : MiddlewareContext) (c : ctx_ref).

Lemma get_user_id_token_only w w' v :
  access_token w' = access_token w ->
  _get_user_id w = (Returned v, w) ->
  _get_user_id w' = (Returned v, w').
Proof.
  unfold _get_user_id, get_access_token, mbind, M_bind; simpl.
  intros ->. destruct (access_token w) as [t|]; [destruct (claims t)|];
    simpl; intros [= <-]; done.
Qed.

Lemma access_token_handoff kind context w :
  access_token (handoff kind context w) = access_token w.
Proof.
  destruct (get_user_id_returns w) as [v Hv].
  rewrite (handoff_published _ _ _ _ Hv). apply access_token_published.
Qed.

Lemma has_session_handoff kind context w c :
  has_session (handoff kind context w) c = has_session w c.
Proof.
  destruct (get_user_id_returns w) as [v Hv].
  rewrite (handoff_published _ _ _ _ Hv). apply has_session_published.
Qed.

Lemma get_state_handoff kind context c w v :
  fastmcp_context context = Some c ->
  has_session w c = true ->
  _get_user_id w = (Returned v, w) ->
  get_state (handoff kind context w) c "user_id" = Some v.
Proof.
  intros Hc Hlive Hv. rewrite (handoff_published _ _ _ _ Hv).
  unfold published. rewrite Hc, get_state_set_state by done.
  by rewrite decide_True.
Qed.

Lemma write_succeeds_session context c w :
  fastmcp_context context = Some c -> has_session w c = true ->
  write_succeeds w context = true.
Proof. intros Hc Hlive. unfold write_succeeds. by rewrite Hc. Qed.

(** A handler that asks for [user_id] is given the identity of the token
    of its own request, whatever the context held before. *)
Theorem handler_reads_identity kind context c w :
  fastmcp_context context = Some c ->
  has_session w c = true ->
  exists v,
    _get_user_id w = (Returned v, w) /\
    (intercept kind context (whoami c) w).1 = Returned (Some v).
Proof.
  intros Hc Hlive. destruct (get_user_id_returns w) as [v Hv]. exists v.
  split; [done|].
  rewrite (intercept_run _ _ _ _ v Hv (write_succeeds_session _ _ _ Hc Hlive)).
  unfold whoami. rewrite has_session_published, Hlive. simpl.
  f_equal. unfold published. rewrite Hc, get_state_set_state by done.
  by rewrite decide_True.
Qed.

Lemma handler_reads_identity_witness :
  exists v,
    _get_user_id (world_of (Some (token_of "u1"))) =
      (Returned v, world_of (Some (token_of "u1"))) /\
    (intercept ToolCall (tool_request (Some 7%positive)) (whoami 7%positive)
       (world_of (Some (token_of "u1")))).1 = Returned (Some v).
Proof.
  apply (handler_reads_identity ToolCall (tool_request (Some 7%positive))
           7%positive (world_of (Some (token_of "u1"))));
    reflexivity.
Defined.

(** When the next stage raises, the exception leaves the hook as it is and
    the identity written before stays in the context: there is no
    roll-back. *)
Theorem failure_keeps_identity {R : Type} kind context c w e :
  fastmcp_context context = Some c ->
  has_session w c = true ->
  exists v w',
    _get_user_id w = (Returned v, w) /\
    intercept kind context (failing_stage (R := R) e) w = (Raised e, w') /\
    get_state w' c "user_id" = Some v.
Proof.
  intros Hc Hlive. destruct (get_user_id_returns w) as [v Hv].
  exists v, (handoff kind context w). split; [done|]. split.
  - rewrite (intercept_run _ _ _ _ v Hv
               (write_succeeds_session _ _ _ Hc Hlive)),
      (handoff_published _ _ _ _ Hv).
    reflexivity.
  - by apply get_state_handoff.
Qed.

Lemma failure_keeps_identity_witness :
  exists v w',
    _get_user_id (world_of (Some (token_of "u1"))) =
      (Returned v, world_of (Some (token_of "u1"))) /\
    intercept ToolCall (tool_request (Some 7%positive))
      (failing_stage (R := value) "ToolError")
      (world_of (Some (token_of "u1"))) = (Raised "ToolError", w') /\
    get_state w' 7%positive "user_id" = Some v.
Proof.
  apply (failure_keeps_identity ToolCall (tool_request (Some 7%positive))
           7%positive (world_of (Some (token_of "u1"))) "ToolError");
    reflexivity.
Defined.

(** Two calls on the same context, the second under another token: the
    context ends with the identity of the second token, also when that one
    is anonymous; nothing of the first caller is left. *)
Theorem identity_follows_latest_token kind1 kind2 context c w tok v :
  fastmcp_context context = Some c ->
  has_session w c = true ->
  _get_user_id (world_of tok) = (Returned v, world_of tok) ->
  get_state
    (handoff kind2 context (with_token tok (handoff kind1 context w)))
    c "user_id" = Some v.
Proof.
  intros Hc Hlive Hv. apply get_state_handoff; [done | |].
  - change (has_session (handoff kind1 context w) c = true).
    by rewrite has_session_handoff.
  - by apply (get_user_id_token_only (world_of tok)).
Qed.

Lemma identity_follows_latest_token_witness :
  get_state
    (handoff ResourceRead (tool_request (Some 7%positive))
       (with_token None
          (handoff ToolCall (tool_request (Some 7%positive))
             (world_of (Some (token_of "u1"))))))
    7%positive "user_id" = Some VNone.
Proof.
  apply (identity_follows_latest_token ToolCall ResourceRead
           (tool_request (Some 7%positive)) 7%positive
           (world_of (Some (token_of "u1"))) None VNone);
    reflexivity.
Defined.

(** Running a hook a second time under the same token changes no context:
    the states are the ones after the first run. *)
Theorem second_run_changes_no_state kind1 kind2 context w :
  contexts (handoff kind2 context (handoff kind1 context w)) =
  contexts (handoff kind1 context w).
Proof.
  destruct (get_user_id_returns w) as [v Hv].
  assert (_get_user_id (handoff kind1 context w) =
          (Returned v, handoff kind1 context w)) as Hv'.
  { apply (get_user_id_token_only w); [apply access_token_handoff | done]. }
  rewrite (handoff_published kind2 _ _ _ Hv').
  rewrite (handoff_published kind1 _ _ _ Hv).
  unfold published. destruct (fastmcp_context context) as [c|]; [|done].
  unfold set_state.
  destruct (contexts w !! c) as [st|] eqn:Hst; simpl.
  - rewrite lookup_insert_eq; simpl. by rewrite !insert_insert_eq.
  - by rewrite Hst.
Qed.

(** A hook looks at nothing of the call but its request-scoped context:
    the method, the tool or resource named and the arguments have no
    influence on what is stored. *)
Theorem hook_ignores_the_message kind1 kind2 context1 context2 w :
  fastmcp_context context1 = fastmcp_context context2 ->
  handoff kind1 context1 w = handoff kind2 context2 w.
Proof.
  intros Hc. destruct (get_user_id_returns w) as [v Hv].
  rewrite !(handoff_published _ _ _ _ Hv). unfold published. by rewrite Hc.
Qed.

Lemma hook_ignores_the_message_witness :
  handoff ToolCall (tool_request (Some 7%positive))
    (world_of (Some (token_of "u1")))
  = handoff ResourceRead
      {| method := "resources/read"; message := VStr "file:///etc/passwd";
         fastmcp_context := Some 7%positive |}
      (world_of (Some (token_of "u1"))).
Proof.
  apply (hook_ignores_the_message ToolCall ResourceRead). reflexivity.
Defined.

(** [None] is stored in exactly four cases: no token, no claims structure,
    no [sub] claim, or a [sub] claim that is itself [None]. *)
Theorem anonymous_iff kind context c w :
  fastmcp_context context = Some c ->
  has_session w c = true ->
  (get_state (handoff kind context w) c "user_id" = Some VNone <->
   no_identity w \/
   exists t cl, access_token w = Some t /\ claims t = Some cl /\
                cl !! "sub" = Some VNone).
Proof.
  intros Hc Hlive. split.
  - destruct (get_user_id_returns w) as [v Hv].
    rewrite (get_state_handoff _ _ _ _ _ Hc Hlive Hv). intros [= ->].
    revert Hv. unfold _get_user_id, get_access_token, mbind, M_bind; simpl.
    destruct (access_token w) as [t|] eqn:Ht; [|left; by apply no_token].
    destruct (claims t) as [cl|] eqn:Hcl; [|left; by eapply no_claims].
    destruct (cl !! "sub") as [v|] eqn:Hs; [|left; by eapply no_sub].
    simpl. intros [= ->]. right. by exists t, cl.
  - intros [Hno | (t & cl & Ht & Hcl & Hs)].
    + apply get_state_handoff; [done | done |]. by apply get_user_id_absent.
    + apply get_state_handoff; [done | done |]. by eapply get_user_id_sub.
Qed.

Lemma anonymous_iff_witness :
  get_state (handoff ToolCall (tool_request (Some 7%positive))
               (world_of (Some token_without_sub)))
    7%positive "user_id" = Some VNone <->
  no_identity (world_of (Some token_without_sub)) \/
  exists t cl, access_token (world_of (Some token_without_sub)) = Some t /\
               claims t = Some cl /\ cl !! "sub" = Some VNone.
Proof.
  apply (anonymous_iff ToolCall (tool_request (Some 7%positive)) 7%positive);
    reflexivity.
Defined.

End MiddlewareInUse.


(** ** The bodies of the routes, read back *)

Section ReadingBack.

Lemma read_escape_char a tail :
  read_chars (escape_char a +:+ tail) = prepend a (read_chars tail).
Proof. destruct a as [[] [] [] [] [] [] [] []]; reflexivity. Qed.

Lemma read_chars_escape s rest :
  read_chars (escape s +:+ dq +:+ rest) = Some (s, rest).
Proof.
  induction s as [|a s IH]; [reflexivity|].
  change (escape (String a s)) with (escape_char a +:+ escape s).
  by rewrite string_app_assoc, read_escape_char, IH.
Qed.

Lemma read_quote s rest :
  exists t, quote s +:+ rest = String "034" t /\ read_chars t = Some (s, rest).
Proof.
  exists (escape s +:+ dq +:+ rest). split; [|apply read_chars_escape].
  unfold quote. by rewrite !string_app_assoc.
Qed.

Lemma strip_bracket_dumps x tail :
  strip_prefix "]" (dumps x +:+ tail) = None.
Proof. destruct x as [|[]|s|l|l]; reflexivity. Qed.

Lemma strip_brace_quote k tail : strip_prefix "}" (quote k +:+ tail) = None.
Proof. reflexivity. Qed.

Lemma strip_dq_quote k tail :
  strip_prefix dq (quote k +:+ tail) = Some (escape k +:+ dq +:+ tail).
Proof. unfold quote. rewrite !string_app_assoc. reflexivity. Qed.

Lemma parse_array_S fuel s :
  parse_array (S fuel) s =
    match parse_value fuel s with
    | Some (v, String c rest) =>
        if Ascii.eqb c "," then
          match parse_array fuel rest with
          | Some (l, rest') => Some (v :: l, rest')
          | None => None
          end
        else if Ascii.eqb c "]" then Some ([v], rest)
        else None
    | _ => None
    end.
Proof. reflexivity. Qed.

Lemma parse_object_S fuel s :
  parse_object (S fuel) s =
    match strip_prefix dq s with
    | None => None
    | Some s1 =>
        match read_chars s1 with
        | Some (k, String c1 s2) =>
            if Ascii.eqb c1 ":" then
              match parse_value fuel s2 with
              | Some (v, String c rest) =>
                  if Ascii.eqb c "," then
                    match parse_object fuel rest with
                    | Some (l, rest') => Some ((k, v) :: l, rest')
                    | None => None
                    end
                  else if Ascii.eqb c "}" then Some ([(k, v)], rest)
                  else None
              | _ => None
              end
            else None
        | _ => None
        end
    end.
Proof. reflexivity. Qed.

Lemma parse_array_join l :
  l <> [] -> Forall reads_back l ->
  forall fuel rest,
    list_sum (map (fun x => S (weight x)) l) <= fuel ->
    parse_array fuel (join "," (map dumps l) +:+ "]" +:+ rest)
    = Some (l, rest).
Proof.
  unfold reads_back.
  induction l as [|x [|y l] IH]; intros Hne Hall fuel rest Hfuel; [done| |].
  - destruct fuel as [|fuel]; [simpl in Hfuel; lia|].
    apply Forall_inv in Hall.
    change (join "," (map dumps [x])) with (dumps x).
    rewrite parse_array_S, Hall by (simpl in Hfuel; lia). reflexivity.
  - destruct fuel as [|fuel]; [simpl in Hfuel; lia|].
    pose proof (Forall_inv Hall) as Hx. apply Forall_inv_tail in Hall.
    change (join "," (map dumps (x :: y :: l)))
      with (dumps x +:+ "," +:+ join "," (map dumps (y :: l))).
    rewrite !string_app_assoc.
    rewrite parse_array_S, Hx by (simpl in Hfuel; lia).
    change ("," +:+ ?t) with (String "," t). simpl Ascii.eqb. cbv iota.
    rewrite IH; [done | done | done |]. simpl in *. lia.
Qed.

(** The text of the members of an object. *)
Lemma parse_object_join l :
  l <> [] -> Forall (fun kv => reads_back kv.2) l ->
  forall fuel rest,
    list_sum (map (fun kv => S (weight kv.2)) l) <= fuel ->
    parse_object fuel
      (join "," (map (fun kv => quote kv.1 +:+ ":" +:+ dumps kv.2) l)
       +:+ "}" +:+ rest)
    = Some (l, rest).
Proof.
  unfold reads_back.
  induction l as [|[k v] [|y l] IH]; intros Hne Hall fuel rest Hfuel;
    [done| |].
  - destruct fuel as [|fuel]; [simpl in Hfuel; lia|].
    apply Forall_inv in Hall. simpl in Hall.
    change (join "," (map (fun kv => quote kv.1 +:+ ":" +:+ dumps kv.2)
                        [(k, v)]))
      with (quote k +:+ ":" +:+ dumps v).
    rewrite !string_app_assoc.
    rewrite parse_object_S, strip_dq_quote, read_chars_escape.
    change (":" +:+ ?t) with (String ":" t). simpl Ascii.eqb. cbv iota.
    rewrite Hall by (simpl in Hfuel; lia). reflexivity.
  - destruct fuel as [|fuel]; [simpl in Hfuel; lia|].
    pose proof (Forall_inv Hall) as Hx. apply Forall_inv_tail in Hall.
    simpl in Hx.
    change (join "," (map (fun kv => quote kv.1 +:+ ":" +:+ dumps kv.2)
                        ((k, v) :: y :: l)))
      with ((quote k +:+ ":" +:+ dumps v) +:+ "," +:+
            join "," (map (fun kv => quote kv.1 +:+ ":" +:+ dumps kv.2)
                        (y :: l))).
    rewrite !string_app_assoc.
    rewrite parse_object_S, strip_dq_quote, read_chars_escape.
    change (":" +:+ ?t) with (String ":" t). simpl Ascii.eqb. cbv iota.
    rewrite Hx by (simpl in Hfuel; lia).
    change ("," +:+ ?t) with (String "," t). simpl Ascii.eqb. cbv iota.
    rewrite IH; [done | done | done |]. simpl in *. lia.
Qed.

(** Every document is read back from its text. *)
Lemma parse_dumps j : reads_back j.
Proof.
  induction j as [|b|s|l IH|l IH] using json_nested_ind;
    intros fuel rest Hfuel;
    (destruct fuel as [|fuel]; [simpl in Hfuel; lia|]).
  - reflexivity.
  - by destruct b.
  - change (dumps (JStr s)) with (quote s).
    destruct (read_quote s rest) as (t & -> & Ht). simpl. by rewrite Ht.
  - destruct l as [|x l]; [reflexivity|].
    change (dumps (JArr (x :: l)) +:+ rest) with
      (String "[" ((join "," (map dumps (x :: l)) +:+ "]") +:+ rest)).
    rewrite string_app_assoc.
    change (parse_value (S fuel) (String "[" ?t)) with
      (match strip_prefix "]" t with
       | Some rest0 => Some (JArr [], rest0)
       | None =>
           match parse_array fuel t with
           | Some (l0, rest0) => Some (JArr l0, rest0)
           | None => None
           end
       end).
    replace (strip_prefix "]" _) with (@None string).
    + rewrite parse_array_join; [done | done | done |]. simpl in *. lia.
    + destruct l as [|y l].
      * symmetry. apply strip_bracket_dumps.
      * change (join "," (map dumps (x :: y :: l)))
          with (dumps x +:+ "," +:+ join "," (map dumps (y :: l))).
        rewrite string_app_assoc. symmetry. apply strip_bracket_dumps.
  - destruct l as [|[k v] l]; [reflexivity|].
    change (dumps (JObj ((k, v) :: l)) +:+ rest) with
      (String "{"
         ((join ","
             (map (fun kv => quote kv.1 +:+ ":" +:+ dumps kv.2)
                ((k, v) :: l)) +:+ "}") +:+ rest)).
    rewrite string_app_assoc.
    change (parse_value (S fuel) (String "{" ?t)) with
      (match strip_prefix "}" t with
       | Some rest0 => Some (JObj [], rest0)
       | None =>
           match parse_object fuel t with
           | Some (l0, rest0) => Some (JObj l0, rest0)
           | None => None
           end
       end).
    replace (strip_prefix "}" _) with (@None string).
    + rewrite parse_object_join; [done | done | done |]. simpl in *. lia.
    + destruct l as [|y l].
      * change (join "," (map (fun kv => quote kv.1 +:+ ":" +:+ dumps kv.2)
                            [(k, v)]))
          with (quote k +:+ ":" +:+ dumps v).
        rewrite string_app_assoc. symmetry. apply strip_brace_quote.
      * change (join "," (map (fun kv => quote kv.1 +:+ ":" +:+ dumps kv.2)
                            ((k, v) :: y :: l)))
          with ((quote k +:+ ":" +:+ dumps v) +:+ "," +:+
                join "," (map (fun kv => quote kv.1 +:+ ":" +:+ dumps kv.2)
                            (y :: l))).
        rewrite !string_app_assoc. symmetry. apply strip_brace_quote.
Qed.

Lemma length_string_app s1 s2 :
  String.length (s1 +:+ s2) = String.length s1 + String.length s2.
Proof. induction s1 as [|a s1 IH]; simpl; [done|]. by rewrite IH. Qed.

Ltac one_char_lengths :=
  repeat match goal with
         | |- context [String.length (String ?a "")] =>
             change (String.length (String a "")) with 1
         end.

Lemma weight_elements l :
  Forall (fun j => weight j <= 2 * String.length (dumps j)) l ->
  list_sum (map (fun x => S (weight x)) l)
  <= 2 * String.length (join "," (map dumps l)) + 1.
Proof.
  induction l as [|x [|y l] IH]; intros Hall.
  - simpl. lia.
  - apply Forall_inv in Hall. simpl. lia.
  - pose proof (Forall_inv Hall) as Hx. apply Forall_inv_tail in Hall.
    specialize (IH Hall). simpl in Hx.
    change (join "," (map dumps (x :: y :: l)))
      with (dumps x +:+ "," +:+ join "," (map dumps (y :: l))).
    rewrite !length_string_app.
    change (list_sum (map (fun x => S (weight x)) (x :: y :: l)))
      with (S (weight x) + list_sum (map (fun x => S (weight x)) (y :: l))).
    one_char_lengths. lia.
Qed.

Lemma weight_members l :
  Forall (fun kv => weight kv.2 <= 2 * String.length (dumps kv.2)) l ->
  list_sum (map (fun kv => S (weight kv.2)) l)
  <= 2 * String.length
           (join "," (map (fun kv => quote kv.1 +:+ ":" +:+ dumps kv.2) l))
     + 1.
Proof.
  induction l as [|[k v] [|y l] IH]; intros Hall.
  - simpl. lia.
  - apply Forall_inv in Hall. simpl in Hall.
    change (join "," (map (fun kv => quote kv.1 +:+ ":" +:+ dumps kv.2)
                        [(k, v)]))
      with (quote k +:+ ":" +:+ dumps v).
    rewrite !length_string_app. one_char_lengths.
    change (list_sum (map (fun kv => S (weight kv.2)) [(k, v)]))
      with (S (weight v) + 0).
    lia.
  - pose proof (Forall_inv Hall) as Hx. apply Forall_inv_tail in Hall.
    specialize (IH Hall). simpl in Hx.
    change (join "," (map (fun kv => quote kv.1 +:+ ":" +:+ dumps kv.2)
                        ((k, v) :: y :: l)))
      with ((quote k +:+ ":" +:+ dumps v) +:+ "," +:+
            join "," (map (fun kv => quote kv.1 +:+ ":" +:+ dumps kv.2)
                        (y :: l))).
    rewrite !length_string_app.
    change (list_sum (map (fun kv => S (weight kv.2)) ((k, v) :: y :: l)))
      with (S (weight v) +
            list_sum (map (fun kv => S (weight kv.2)) (y :: l))).
    one_char_lengths. lia.
Qed.

Lemma weight_le_length j : weight j <= 2 * String.length (dumps j).
Proof.
  induction j as [|b|s|l IH|l IH] using json_nested_ind.
  - simpl. lia.
  - destruct b; simpl; lia.
  - change (dumps (JStr s)) with (dq +:+ escape s +:+ dq).
    rewrite !length_string_app. simpl. lia.
  - apply weight_elements in IH.
    change (dumps (JArr l)) with ("[" +:+ join "," (map dumps l) +:+ "]").
    rewrite !length_string_app.
    change (weight (JArr l))
      with (S (list_sum (map (fun x => S (weight x)) l))).
    one_char_lengths. lia.
  - apply weight_members in IH.
    change (dumps (JObj l)) with
      ("{" +:+
       join "," (map (fun kv => quote kv.1 +:+ ":" +:+ dumps kv.2) l) +:+
       "}").
    rewrite !length_string_app.
    change (weight (JObj l))
      with (S (list_sum (map (fun kv => S (weight kv.2)) l))).
    one_char_lengths. lia.
Qed.

Lemma json_loads_dumps j :
  all_text j = true -> json_loads (dumps j) = Some j.
Proof.
  intros Hj. unfold json_loads. rewrite valid_utf8_dumps, Hj.
  pose proof (parse_dumps j (2 * String.length (dumps j) + 2) "") as H.
  rewrite string_app_empty in H. rewrite H; [done|].
  pose proof (weight_le_length j). lia.
Qed.

(** A realm URL that tries to add fields of its own to the document: it
    is text, with quotes and a backslash in it. *)
Example forged_realm_read_back :
  let url := "http://kc/realms/a" +:+ dq +:+ "," +:+ quoted "issuer" +:+
             ":" +:+ quoted "http://evil\" in
  exists response,
    openid_configuration url (get_request "/" []) = Returned response /\
    json_loads (body response) = Some (discovery_document url).
Proof. eexists. split; vm_compute; reflexivity. Qed.

(** The body of [/health] is always a JSON text that a client reads back
    as the document the handler built.  So is the body of the discovery
    route when the realm URL is text, whatever characters it contains
    (quotes, backslashes, control characters): the issuer read back is the
    realm URL, character by character.  When the realm URL is not text,
    the route has no body: building the response raises. *)
Theorem route_bodies_read_back (url : string) (request : Request) :
  (exists response,
     health_check request = Returned response /\
     json_loads (body response) = Some (content response)) /\
  if valid_utf8 url then
    exists response,
      openid_configuration url request = Returned response /\
      status_code response = 200%Z /\
      json_loads (body response) = Some (content response) /\
      field (content response) "issuer" = Some (JStr url)
  else openid_configuration url request = Raised "UnicodeEncodeError".
Proof.
  split.
  - eexists. split; [reflexivity|]. by apply json_loads_dumps.
  - rewrite openid_configuration_outcome.
    destruct (valid_utf8 url) eqn:Hurl; [|reflexivity].
    eexists. split; [reflexivity|]. cbn [status_code body content].
    split; [reflexivity|]. split; [|reflexivity].
    apply json_loads_dumps. by rewrite all_text_discovery.
Qed.

(** The body of the discovery route tells the realm URL: two realm URLs
    that differ never give the same body, also when one of them contains
    quotes to look like the document of the other. *)
Theorem discovery_body_determines_realm url1 url2 request1 request2
    response1 response2 :
  openid_configuration url1 request1 = Returned response1 ->
  openid_configuration url2 request2 = Returned response2 ->
  url1 <> url2 ->
  body response1 <> body response2.
Proof.
  rewrite !openid_configuration_outcome.
  destruct (valid_utf8 url1) eqn:H1; [|discriminate].
  destruct (valid_utf8 url2) eqn:H2; [|discriminate].
  intros E1 E2 Hne Hb. apply Hne.
  apply (f_equal (fun out => match out with
                             | Returned r => body r
                             | Raised _ => ""
                             end)) in E1, E2.
  cbv beta iota in E1, E2. cbn [body] in E1, E2. rewrite <- E1, <- E2 in Hb.
  assert (json_loads (dumps (discovery_document url1)) =
          Some (discovery_document url1)) as L1
    by (apply json_loads_dumps; by rewrite all_text_discovery).
  assert (json_loads (dumps (discovery_document url2)) =
          Some (discovery_document url2)) as L2
    by (apply json_loads_dumps; by rewrite all_text_discovery).
  rewrite Hb, L2 in L1. by injection L1.
Qed.

Lemma discovery_body_determines_realm_witness :
  exists response1 response2,
    openid_configuration "http://kc/realms/a" (get_request "/" [])
      = Returned response1 /\
    openid_configuration
      ("http://kc/realms/a" +:+ dq +:+ "," +:+ quoted "issuer" +:+ ":" +:+
       quoted "http://kc/realms/b")
      (get_request "/" []) = Returned response2 /\
    body response1 <> body response2.
Proof.
  eexists _, _. split; [reflexivity|]. split; [reflexivity|].
  apply (discovery_body_determines_realm "http://kc/realms/a"
           ("http://kc/realms/a" +:+ dq +:+ "," +:+ quoted "issuer" +:+
            ":" +:+ quoted "http://kc/realms/b")
           (get_request "/" []) (get_request "/" []));
    [reflexivity | reflexivity | discriminate].
Defined.

Lemma app_inv_head_string (p s1 s2 : string) :
  p +:+ s1 = p +:+ s2 -> s1 = s2.
Proof.
  induction p as [|a p IH]; [done|].
  change (String a (p +:+ s1) = String a (p +:+ s2) -> s1 = s2).
  intros [= H]. by apply IH.
Qed.

(** For every realm URL the five endpoints of the discovery document are
    five different URLs. *)
Theorem discovery_endpoints_distinct (url : string) :
  let doc := discovery_document url in
  forall k1 k2 u,
    k1 ∈ ["authorization_endpoint"; "token_endpoint"; "userinfo_endpoint";
          "jwks_uri"; "registration_endpoint"] ->
    k2 ∈ ["authorization_endpoint"; "token_endpoint"; "userinfo_endpoint";
          "jwks_uri"; "registration_endpoint"] ->
    field doc k1 = Some u -> field doc k2 = Some u -> k1 = k2.
Proof.
  intros doc k1 k2 u H1 H2. rewrite !elem_of_cons in H1, H2.
  destruct H1 as [-> | [-> | [-> | [-> | [-> | H1]]]]];
    [.. | by apply elem_of_nil in H1];
    (destruct H2 as [-> | [-> | [-> | [-> | [-> | H2]]]]];
     [.. | by apply elem_of_nil in H2]);
    try reflexivity;
    simpl; intros [= <-] [= H]; apply app_inv_head_string in H;
    discriminate H.
Qed.

Lemma discovery_endpoints_distinct_witness :
  "token_endpoint" = "token_endpoint".
Proof.
  apply (discovery_endpoints_distinct "https://kc.example.org/realms/prod"
           "token_endpoint" "token_endpoint"
           (JStr ("https://kc.example.org/realms/prod" +:+
                  "/protocol/openid-connect/token")));
    first [reflexivity | rewrite !elem_of_cons; tauto].
Defined.

End ReadingBack.

(** ** Further properties of the timestamp *)

Section TimestampShape.

Local Open Scope Z_scope.

Lemma length_fixed_digits k : forall n tail,
  String.length (fixed_digits k n tail) = (k + String.length tail)%nat.
Proof.
  induction k as [|k IH]; intros n tail; [done|].
  change (fixed_digits (S k) n tail) with
    (fixed_digits k (n / 10) (String (digit_char (n mod 10)) tail)).
  rewrite IH. simpl. lia.
Qed.

Lemma length_zpad k n : String.length (zpad k n) = k.
Proof. unfold zpad. rewrite length_fixed_digits. simpl. lia. Qed.

(** The timestamp of [add_numbers] has 19 characters when the clock shows
    a whole second and 26 otherwise. *)
Theorem timestamp_length (a b : float) (now : datetime) :
  valid_datetime now = true ->
  exists ts,
    dict_get (add_numbers a b now) "timestamp" = Some (VStr ts) /\
    String.length ts = if microsecond now =? 0 then 19%nat else 26%nat.
Proof.
  intros _. exists (isoformat now). split; [reflexivity|].
  unfold isoformat.
  destruct (microsecond now =? 0);
    rewrite !length_string_app, !length_zpad; reflexivity.
Qed.

Lemma timestamp_length_witness :
  exists ts,
    dict_get (add_numbers 2 3 leap_day_morning) "timestamp"
      = Some (VStr ts) /\
    String.length ts =
      if microsecond leap_day_morning =? 0 then 19%nat else 26%nat.
Proof. apply (timestamp_length 2 3 leap_day_morning). reflexivity. Defined.











End TimestampShape.
